(** * The transform stage of the product-review warehouse pipeline

    A shallow embedding of [checkNumeric] and [transform_data] from
    [etl_pipeline_data_warehouse_python_postgres.ipynb], together with the
    part of the Python and pandas semantics these two functions rely on.

    A data frame is a list of rows in row order; a row is a record with one
    field per column; a null cell (NaN, None, NaT) is [None].  Exceptions are
    values of an error monad.  The [print] calls of the notebook write to the
    console only and are left out. *)

From Stdlib Require Import List ZArith NArith Bool Lia String Ascii.
From Stdlib Require Import DecimalString.
Import ListNotations.

Set Implicit Arguments.

(** ** Exceptions *)

(** The exceptions the transform can raise, told apart by the call that
    raises them: [KeyError] from indexing an empty [mode()] result,
    [DateParseError] from [pd.to_datetime] and [ValueError] from [int].
    In Python the exception of [pd.to_datetime] is itself a [ValueError] or
    an instance of one of its subclasses ([ParserError],
    [OutOfBoundsDatetime]); [is_ValueError] below is the class test. *)
Inductive exn : Type :=
| KeyError
| DateParseError
| ValueError.

Inductive result (A : Type) : Type :=
| Ok (a : A)
| Raise (e : exn).

Arguments Ok {A} a.
Arguments Raise {A} e.

Definition bind {A B : Type} (r : result A) (k : A -> result B) : result B :=
  match r with
  | Ok a => k a
  | Raise e => Raise e
  end.

Notation "x <- r ;; k" := (bind r (fun x => k))
  (at level 61, r at next level, right associativity).

(** [Series.apply] with a function that may raise: the first exception in
    row order aborts the whole call. *)
Fixpoint mapM {A B : Type} (f : A -> result B) (l : list A) : result (list B) :=
  match l with
  | [] => Ok []
  | x :: xs => y <- f x ;; ys <- mapM f xs ;; Ok (y :: ys)
  end.

(** ** Python strings *)

(** A Python [str] is a sequence of Unicode code points. *)
Definition pystr : Type := list N.

(** Code points of an ASCII literal. *)
Definition lit (s : string) : pystr := map N_of_ascii (list_ascii_of_string s).

Definition pystr_eq_dec : forall s t : pystr, {s = t} + {s <> t} :=
  list_eq_dec N.eq_dec.

(** Python compares strings code point by code point. *)
Fixpoint pystr_leb (s t : pystr) : bool :=
  match s, t with
  | [], _ => true
  | _ :: _, [] => false
  | a :: s', b :: t' => if (a <? b)%N then true
                        else if (b <? a)%N then false
                        else pystr_leb s' t'
  end.

(** *** The Unicode digit tables (Unicode 14.0, as in [unicodedata])

    Every character with a decimal value lies in a run of ten consecutive
    code points valued 0 to 9; [decimal_blocks] lists the first code point of
    each run. *)
Definition decimal_blocks : list N :=
  [48; 1632; 1776; 1984; 2406; 2534; 2662; 2790; 2918; 3046; 3174; 3302;
   3430; 3558; 3664; 3792; 3872; 4160; 4240; 6112; 6160; 6470; 6608;
   6784; 6800; 6992; 7088; 7232; 7248; 42528; 43216; 43264; 43472; 43504;
   43600; 44016; 65296; 66720; 68912; 69734; 69872; 69942; 70096; 70384;
   70736; 70864; 71248; 71360; 71472; 71904; 72016; 72784; 73040; 73120;
   92768; 92864; 93008; 120782; 120792; 120802; 120812; 120822; 123200;
   123632; 125264; 130032]%N.

(** Characters with a digit value but no decimal value (superscripts,
    circled digits and the like): first code point, length of the run and
    value of its first character. *)
Definition digit_only_runs : list (N * N * N) :=
  [(178, 2, 2); (185, 1, 1); (4969, 9, 1); (6618, 1, 1); (8304, 1, 0);
   (8308, 6, 4); (8320, 10, 0); (9312, 9, 1); (9332, 9, 1); (9352, 9, 1);
   (9450, 1, 0); (9461, 9, 1); (9471, 1, 0); (10102, 9, 1); (10112, 9, 1);
   (10122, 9, 1); (68160, 4, 1); (69216, 9, 1); (69714, 9, 1);
   (127232, 1, 0); (127233, 10, 0)]%N.

Definition in_run (c start len : N) : bool :=
  ((start <=? c) && (c <? start + len))%N.

(** [unicodedata.decimal(chr(c), None)] *)
Definition unicode_decimal (c : N) : option N :=
  match find (fun b => in_run c b 10) decimal_blocks with
  | Some b => Some (c - b)%N
  | None => None
  end.

(** [unicodedata.digit(chr(c), None)] *)
Definition unicode_digit (c : N) : option N :=
  match unicode_decimal c with
  | Some d => Some d
  | None =>
      match find (fun r => in_run c (fst (fst r)) (snd (fst r))) digit_only_runs with
      | Some r => Some (snd r + (c - fst (fst r)))%N
      | None => None
      end
  end.

Definition is_some {A : Type} (o : option A) : bool :=
  match o with Some _ => true | None => false end.

(** [str.isdigit]: true when the string is not empty and every character
    has a digit value. *)
Definition isdigit (s : pystr) : bool :=
  match s with
  | [] => false
  | _ :: _ => forallb (fun c => is_some (unicode_digit c)) s
  end.

(** The characters '0' to '9'. *)
Definition is_ascii_digit (c : N) : bool := in_run c 48 10.

(** [str.isspace] on one character. *)
Definition unicode_isspace (c : N) : bool :=
  (in_run c 9 5 || in_run c 28 5 || (c =? 133) || (c =? 160) || (c =? 5760)
   || in_run c 8192 11 || (c =? 8232) || (c =? 8233) || (c =? 8239)
   || (c =? 8287) || (c =? 12288))%N.

(** ** Python values held in an object column *)

(** The cells of the [author_id] column: [read_csv] leaves this column with
    mixed types, so a cell is an [int], a [str] or the missing value NaN. *)
Inductive pyval : Type :=
| PyNaN
| PyInt (z : Z)
| PyStr (s : pystr).

Definition pyval_eq_dec : forall u v : pyval, {u = v} + {u <> v}.
Proof.
  decide equality; [apply Z.eq_dec | apply pystr_eq_dec].
Defined.

(** [str(val)] *)
Definition py_str (v : pyval) : pystr :=
  match v with
  | PyNaN => lit "nan"
  | PyInt z => lit (NilZero.string_of_int (Z.to_int z))
  | PyStr s => s
  end.

(** *** [int(x)] *)

(** Before parsing, [int] maps every non-ASCII space to a blank and every
    non-ASCII decimal character to its ASCII digit; any other non-ASCII
    character makes the literal invalid. *)
Definition to_ascii_char (c : N) : option N :=
  if (c <? 127)%N then Some c
  else if unicode_isspace c then Some 32%N
  else match unicode_decimal c with
       | Some d => Some (48 + d)%N
       | None => None
       end.

Fixpoint to_ascii (s : pystr) : option (list N) :=
  match s with
  | [] => Some []
  | c :: s' =>
      match to_ascii_char c, to_ascii s' with
      | Some a, Some t => Some (a :: t)
      | _, _ => None
      end
  end.

(** ASCII white space, as skipped around an integer literal. *)
Definition is_ascii_space (c : N) : bool := in_run c 9 5 || (c =? 32)%N.

Fixpoint lstrip (t : list N) : list N :=
  match t with
  | c :: t' => if is_ascii_space c then lstrip t' else t
  | [] => []
  end.

(** The digits of a base-10 literal; single underscores may separate
    digits.  Returns the value, the number of digits read and the rest. *)
Fixpoint scan_digits (acc : Z) (ndig : nat) (prev_us : bool) (t : list N)
  : option (Z * nat * list N) :=
  match t with
  | c :: t' =>
      if is_ascii_digit c
      then scan_digits (10 * acc + Z.of_N (c - 48)) (S ndig) false t'
      else if (c =? 95)%N
           then (if prev_us then None else scan_digits acc ndig true t')
           else (if prev_us then None else Some (acc, ndig, t))
  | [] => if prev_us then None else Some (acc, ndig, [])
  end.

(** An integer literal in base 10: white space, an optional sign, the
    digits (which may not start with an underscore), white space. *)
Definition long_from_string (t : list N) : option Z :=
  let t1 := lstrip t in
  let '(negative, t2) :=
    match t1 with
    | c :: r => if (c =? 43)%N then (false, r)
                else if (c =? 45)%N then (true, r)
                else (false, t1)
    | [] => (false, t1)
    end in
  if match t2 with c :: _ => (c =? 95)%N | [] => false end then None
  else
    match scan_digits 0 0 false t2 with
    | Some (v, S _, rest) =>
        if forallb is_ascii_space rest
        then Some (if negative then (- v)%Z else v)
        else None
    | _ => None
    end.

Definition py_int_str (s : pystr) : result Z :=
  match to_ascii s with
  | Some t => match long_from_string t with
              | Some z => Ok z
              | None => Raise ValueError
              end
  | None => Raise ValueError
  end.

(** [int(x)]: an [int] is returned as it is, a [str] is parsed, NaN cannot
    be converted. *)
Definition py_int (v : pyval) : result Z :=
  match v with
  | PyInt z => Ok z
  | PyStr s => py_int_str s
  | PyNaN => Raise ValueError
  end.

(** ** Utility function *)

(** [def checkNumeric(val): return True if str(val).isdigit() else False] *)
Definition checkNumeric (val : pyval) : bool :=
  if isdigit (py_str val) then true else false.


(** ** Data model *)

(** A float cell is carried from input to output and never computed on; it
    is held as its IEEE-754 binary64 bit pattern.  A NaN cell is [None]. *)
Definition float64 : Type := Z.

(** A parsed timestamp: the calendar date and the time of day in
    nanoseconds. *)
Record Timestamp : Type := mkTimestamp
  { ts_year : Z; ts_month : Z; ts_day : Z; ts_time : Z }.

Definition Timestamp_eq_dec : forall s t : Timestamp, {s = t} + {s <> t}.
Proof. decide equality; apply Z.eq_dec. Defined.

Definition option_eq_dec {A : Type} (A_eq_dec : forall x y : A, {x = y} + {x <> y})
  : forall x y : option A, {x = y} + {x <> y}.
Proof. decide equality. Defined.

(** Rows of [df1], the product extract, with the columns [extract_data]
    keeps. *)
Module Product.
Record t : Type := mk
  { product_id : option pystr;
    brand_id : option Z;
    loves_count : option Z;
    rating : option float64;
    reviews : option float64;
    primary_category : option pystr;
    child_count : option Z }.
End Product.

(** Rows of [df2], the review extract. *)
Module Review.
Record t : Type := mk
  { author_id : pyval;
    rating : option Z;
    submission_time : option pystr;
    review_text : option pystr;
    review_title : option pystr;
    skin_tone : option pystr;
    eye_color : option pystr;
    skin_type : option pystr;
    hair_color : option pystr;
    product_id : option pystr;
    product_name : option pystr;
    brand_name : option pystr;
    price_usd : option float64 }.
End Review.

(** Rows of [df_merged] after the merge and the renaming of its columns
    ([rating_x] is the product's rating, [rating_y] the review's). *)
Module Merged.
Record t : Type := mk
  { product_id : option pystr;
    brand_id : option Z;
    favorites_count : option Z;
    avg_product_rating : option float64;
    product_reviews_count : option float64;
    product_category : option pystr;
    variations_count : option Z;
    reviewer_id : pyval;
    review_rating : option Z;
    full_date : option pystr;
    review_text : option pystr;
    review_title : option pystr;
    reviewer_skin_tone : option pystr;
    reviewer_eye_color : option pystr;
    reviewer_skin_type : option pystr;
    reviewer_hair_color : option pystr;
    product_name : option pystr;
    brand_name : option pystr;
    product_price : option float64 }.

Definition set_review_title (v : option pystr) (m : t) : t :=
  mk (product_id m) (brand_id m) (favorites_count m) (avg_product_rating m)
     (product_reviews_count m) (product_category m) (variations_count m)
     (reviewer_id m) (review_rating m) (full_date m) (review_text m)
     v (reviewer_skin_tone m) (reviewer_eye_color m)
     (reviewer_skin_type m) (reviewer_hair_color m) (product_name m)
     (brand_name m) (product_price m).

Definition set_reviewer_skin_tone (v : option pystr) (m : t) : t :=
  mk (product_id m) (brand_id m) (favorites_count m) (avg_product_rating m)
     (product_reviews_count m) (product_category m) (variations_count m)
     (reviewer_id m) (review_rating m) (full_date m) (review_text m)
     (review_title m) v (reviewer_eye_color m)
     (reviewer_skin_type m) (reviewer_hair_color m) (product_name m)
     (brand_name m) (product_price m).

Definition set_reviewer_eye_color (v : option pystr) (m : t) : t :=
  mk (product_id m) (brand_id m) (favorites_count m) (avg_product_rating m)
     (product_reviews_count m) (product_category m) (variations_count m)
     (reviewer_id m) (review_rating m) (full_date m) (review_text m)
     (review_title m) (reviewer_skin_tone m) v
     (reviewer_skin_type m) (reviewer_hair_color m) (product_name m)
     (brand_name m) (product_price m).

Definition set_reviewer_skin_type (v : option pystr) (m : t) : t :=
  mk (product_id m) (brand_id m) (favorites_count m) (avg_product_rating m)
     (product_reviews_count m) (product_category m) (variations_count m)
     (reviewer_id m) (review_rating m) (full_date m) (review_text m)
     (review_title m) (reviewer_skin_tone m) (reviewer_eye_color m)
     v (reviewer_hair_color m) (product_name m)
     (brand_name m) (product_price m).

Definition set_reviewer_hair_color (v : option pystr) (m : t) : t :=
  mk (product_id m) (brand_id m) (favorites_count m) (avg_product_rating m)
     (product_reviews_count m) (product_category m) (variations_count m)
     (reviewer_id m) (review_rating m) (full_date m) (review_text m)
     (review_title m) (reviewer_skin_tone m) (reviewer_eye_color m)
     (reviewer_skin_type m) v (product_name m)
     (brand_name m) (product_price m).
End Merged.

(** Rows of [df_merged] from the date derivation on: [full_date] holds a
    timestamp (NaT is [None]) and the columns [year], [month], [day] exist.
    [reviewer_id] stays an object cell; the last cleaning step replaces it by
    an [int]. *)
Module Clean.
Record t : Type := mk
  { product_id : option pystr;
    brand_id : option Z;
    favorites_count : option Z;
    avg_product_rating : option float64;
    product_reviews_count : option float64;
    product_category : option pystr;
    variations_count : option Z;
    reviewer_id : pyval;
    review_rating : option Z;
    full_date : option Timestamp;
    review_text : option pystr;
    review_title : option pystr;
    reviewer_skin_tone : option pystr;
    reviewer_eye_color : option pystr;
    reviewer_skin_type : option pystr;
    reviewer_hair_color : option pystr;
    product_name : option pystr;
    brand_name : option pystr;
    product_price : option float64;
    year : option Z;
    month : option Z;
    day : option Z }.

Definition set_reviewer_id (v : pyval) (c : t) : t :=
  mk (product_id c) (brand_id c) (favorites_count c) (avg_product_rating c)
     (product_reviews_count c) (product_category c) (variations_count c)
     v (review_rating c) (full_date c) (review_text c)
     (review_title c) (reviewer_skin_tone c) (reviewer_eye_color c)
     (reviewer_skin_type c) (reviewer_hair_color c) (product_name c)
     (brand_name c) (product_price c) (year c) (month c) (day c).
End Clean.

(** The five output tables. *)
Module ReviewsRow.
Record t : Type := mk
  { review_id : Z;
    product_id : option pystr;
    brand_id : option Z;
    reviewer_id : pyval;
    date_id : option Timestamp;
    review_title : option pystr;
    review_text : option pystr;
    review_rating : option Z }.
End ReviewsRow.

Module ProductRow.
Record t : Type := mk
  { product_id : option pystr;
    product_name : option pystr;
    avg_product_rating : option float64;
    product_price : option float64;
    product_reviews_count : option float64;
    favorites_count : option Z;
    variations_count : option Z;
    product_category : option pystr }.
End ProductRow.

Module BrandRow.
Record t : Type := mk
  { brand_id : option Z;
    brand_name : option pystr }.
End BrandRow.

Module ReviewerRow.
Record t : Type := mk
  { reviewer_id : pyval;
    reviewer_skin_tone : option pystr;
    reviewer_skin_type : option pystr;
    reviewer_eye_color : option pystr;
    reviewer_hair_color : option pystr }.
End ReviewerRow.

Module DateRow.
Record t : Type := mk
  { date_id : option Timestamp;
    year : option Z;
    month : option Z;
    day : option Z }.
End DateRow.

(** What [transform_data] returns. *)
Record Tables : Type := mkTables
  { reviews_df : list ReviewsRow.t;
    product_df : list ProductRow.t;
    brand_df : list BrandRow.t;
    reviewer_df : list ReviewerRow.t;
    date_df : list DateRow.t }.

(** ** The pandas operations the transform uses *)

(** [Series.fillna(v)] on one cell. *)
Definition fillna {A : Type} (v : A) (cell : option A) : option A :=
  match cell with
  | Some x => Some x
  | None => Some v
  end.

(** The non-null values of a column, in row order. *)
Fixpoint notna {A : Type} (col : list (option A)) : list A :=
  match col with
  | [] => []
  | Some x :: col' => x :: notna col'
  | None :: col' => notna col'
  end.

Fixpoint insert_sorted (s : pystr) (l : list pystr) : list pystr :=
  match l with
  | [] => [s]
  | t :: l' => if pystr_leb s t then s :: l else t :: insert_sorted s l'
  end.

Definition sort_values (l : list pystr) : list pystr :=
  fold_right insert_sorted [] l.

(** [Series.mode()]: nulls are left out, the values that occur most often
    are returned in ascending order.  The result is empty when the column has
    no non-null value. *)
Definition mode (col : list (option pystr)) : list pystr :=
  let values := notna col in
  let uniques := nodup pystr_eq_dec values in
  let top := fold_right Nat.max 0%nat (map (count_occ pystr_eq_dec values) uniques) in
  sort_values
    (filter (fun v => (count_occ pystr_eq_dec values v =? top)%nat) uniques).

(** [s[0]] on the result of [mode()]: a [KeyError] when it is empty. *)
Definition item0 (s : list pystr) : result pystr :=
  match s with
  | v :: _ => Ok v
  | [] => Raise KeyError
  end.

Section DropDuplicates.
Variables (A K : Type).
Variable K_eq_dec : forall x y : K, {x = y} + {x <> y}.
Variable key : A -> K.

(** [DataFrame.drop_duplicates(key)] keeps, of the rows with equal values
    in the [key] column, the first one; nulls count as equal to each
    other.  [seen] holds the key values met so far. *)
Fixpoint drop_duplicates_from (seen : list K) (rows : list A) : list A :=
  match rows with
  | [] => []
  | r :: rows' =>
      if in_dec K_eq_dec (key r) seen
      then drop_duplicates_from seen rows'
      else r :: drop_duplicates_from (key r :: seen) rows'
  end.

Definition drop_duplicates (rows : list A) : list A :=
  drop_duplicates_from [] rows.
End DropDuplicates.

(** ** Transform step *)

(** A row of the inner join of [df1] and [df2] on [product_id], under the
    column names of [rename_dict]. *)
Definition merged_row (p : Product.t) (r : Review.t) : Merged.t :=
  {| Merged.product_id := Product.product_id p;
     Merged.brand_id := Product.brand_id p;
     Merged.favorites_count := Product.loves_count p;
     Merged.avg_product_rating := Product.rating p;
     Merged.product_reviews_count := Product.reviews p;
     Merged.product_category := Product.primary_category p;
     Merged.variations_count := Product.child_count p;
     Merged.reviewer_id := Review.author_id r;
     Merged.review_rating := Review.rating r;
     Merged.full_date := Review.submission_time r;
     Merged.review_text := Review.review_text r;
     Merged.review_title := Review.review_title r;
     Merged.reviewer_skin_tone := Review.skin_tone r;
     Merged.reviewer_eye_color := Review.eye_color r;
     Merged.reviewer_skin_type := Review.skin_type r;
     Merged.reviewer_hair_color := Review.hair_color r;
     Merged.product_name := Review.product_name r;
     Merged.brand_name := Review.brand_name r;
     Merged.product_price := Review.price_usd r |}.

Definition same_product (p : Product.t) (r : Review.t) : bool :=
  if option_eq_dec pystr_eq_dec (Product.product_id p) (Review.product_id r)
  then true else false.

(** [pd.merge(df1, df2, how="inner", on="product_id")] followed by
    [rename(columns=rename_dict)]: every product row is paired with every
    review row of the same [product_id] (null keys match each other), in the
    order of the product rows and, for one product, of the review rows.  The
    cleaning steps below are stated for any merged table, so nothing proved
    about them rests on this order. *)
Definition merge (df1 : list Product.t) (df2 : list Review.t) : list Merged.t :=
  flat_map (fun p => map (merged_row p) (filter (same_product p) df2)) df1.

(** [df_merged.dropna(subset=["review_text"])] *)
Definition dropna_review_text (df : list Merged.t) : list Merged.t :=
  filter (fun m => is_some (Merged.review_text m)) df.

Definition review_title_placeholder : pystr := lit "Review Provided".

(** [df[col] = df[col].fillna(df[col].mode()[0])] for one of the four
    categorical reviewer columns, given as its getter and setter. *)
Definition fill_with_mode
    (get : Merged.t -> option pystr)
    (set : option pystr -> Merged.t -> Merged.t)
    (df : list Merged.t) : result (list Merged.t) :=
  v <- item0 (mode (map get df)) ;;
  Ok (map (fun m => set (fillna v (get m)) m) df).

Section Transform.

(** [pd.to_datetime] on one string: [Some (Some t)] when it parses to the
    timestamp [t], [Some None] when it reads as NaT (the empty string and
    the like), [None] when it does not parse.  The parser belongs to pandas;
    the transform is modelled for any parser. *)
Variable parse_datetime : pystr -> option (option Timestamp).

(** One cell of [pd.to_datetime(column)]: a null becomes NaT, a string
    that does not parse raises. *)
Definition to_datetime (cell : option pystr) : result (option Timestamp) :=
  match cell with
  | None => Ok None
  | Some s =>
      match parse_datetime s with
      | Some d => Ok d
      | None => Raise DateParseError
      end
  end.

(** A row with [full_date] replaced by the timestamp [d] and the columns
    [year], [month], [day] taken from it through [.dt]. *)
Definition dated_row (m : Merged.t) (d : option Timestamp) : Clean.t :=
  {| Clean.product_id := Merged.product_id m;
     Clean.brand_id := Merged.brand_id m;
     Clean.favorites_count := Merged.favorites_count m;
     Clean.avg_product_rating := Merged.avg_product_rating m;
     Clean.product_reviews_count := Merged.product_reviews_count m;
     Clean.product_category := Merged.product_category m;
     Clean.variations_count := Merged.variations_count m;
     Clean.reviewer_id := Merged.reviewer_id m;
     Clean.review_rating := Merged.review_rating m;
     Clean.full_date := d;
     Clean.review_text := Merged.review_text m;
     Clean.review_title := Merged.review_title m;
     Clean.reviewer_skin_tone := Merged.reviewer_skin_tone m;
     Clean.reviewer_eye_color := Merged.reviewer_eye_color m;
     Clean.reviewer_skin_type := Merged.reviewer_skin_type m;
     Clean.reviewer_hair_color := Merged.reviewer_hair_color m;
     Clean.product_name := Merged.product_name m;
     Clean.brand_name := Merged.brand_name m;
     Clean.product_price := Merged.product_price m;
     Clean.year := option_map ts_year d;
     Clean.month := option_map ts_month d;
     Clean.day := option_map ts_day d |}.

(** The date derivation: [full_date] is parsed for the whole column, then
    [year], [month] and [day] are added. *)
Definition derive_dates (df : list Merged.t) : result (list Clean.t) :=
  mapM (fun m => d <- to_datetime (Merged.full_date m) ;; Ok (dated_row m d)) df.

(** The rows whose [is_numeric] cell, [checkNumeric] of [reviewer_id], is
    [True]; the helper column is dropped again right after. *)
Definition keep_numeric (df : list Clean.t) : list Clean.t :=
  filter (fun c => checkNumeric (Clean.reviewer_id c)) df.

(** [df["reviewer_id"].apply(lambda x: int(x))] *)
Definition reviewer_id_to_int (df : list Clean.t) : result (list Clean.t) :=
  mapM (fun c => z <- py_int (Clean.reviewer_id c) ;;
                 Ok (Clean.set_reviewer_id (PyInt z) c)) df.

(** The null handling of [transform_data]: rows without [review_text] are
    dropped, a null [review_title] gets the placeholder, the four
    categorical columns are filled with their mode, in the order of the
    source. *)
Definition fill_missing (df_merged : list Merged.t) : result (list Merged.t) :=
  let df_merged := dropna_review_text df_merged in
  let df_merged :=
    map (fun m => Merged.set_review_title
                    (fillna review_title_placeholder (Merged.review_title m)) m)
        df_merged in
  df_merged <- fill_with_mode Merged.reviewer_skin_tone
                 Merged.set_reviewer_skin_tone df_merged ;;
  df_merged <- fill_with_mode Merged.reviewer_eye_color
                 Merged.set_reviewer_eye_color df_merged ;;
  df_merged <- fill_with_mode Merged.reviewer_skin_type
                 Merged.set_reviewer_skin_type df_merged ;;
  fill_with_mode Merged.reviewer_hair_color
    Merged.set_reviewer_hair_color df_merged.

(** [df_merged] as it stands when the output tables are cut from it: the
    part of [transform_data] up to the conversion of [reviewer_id]. *)
Definition cleaned (df_merged : list Merged.t) : result (list Clean.t) :=
  df_merged <- fill_missing df_merged ;;
  df_merged <- derive_dates df_merged ;;
  let df_merged := keep_numeric df_merged in
  reviewer_id_to_int df_merged.

(** *** The fact table and the four dimension tables *)

(** A row of [reviews_df]: the selected columns, [full_date] renamed to
    [date_id], and [review_id], the new index plus one, put in front. *)
Definition reviews_row (index : nat) (c : Clean.t) : ReviewsRow.t :=
  {| ReviewsRow.review_id := Z.of_nat index + 1;
     ReviewsRow.product_id := Clean.product_id c;
     ReviewsRow.brand_id := Clean.brand_id c;
     ReviewsRow.reviewer_id := Clean.reviewer_id c;
     ReviewsRow.date_id := Clean.full_date c;
     ReviewsRow.review_title := Clean.review_title c;
     ReviewsRow.review_text := Clean.review_text c;
     ReviewsRow.review_rating := Clean.review_rating c |}.

(** [reset_index(drop=True)] numbers the rows from 0 in row order. *)
Definition make_reviews (df_merged : list Clean.t) : list ReviewsRow.t :=
  map (fun ic => reviews_row (fst ic) (snd ic))
      (combine (seq 0 (List.length df_merged)) df_merged).

Definition product_row (c : Clean.t) : ProductRow.t :=
  {| ProductRow.product_id := Clean.product_id c;
     ProductRow.product_name := Clean.product_name c;
     ProductRow.avg_product_rating := Clean.avg_product_rating c;
     ProductRow.product_price := Clean.product_price c;
     ProductRow.product_reviews_count := Clean.product_reviews_count c;
     ProductRow.favorites_count := Clean.favorites_count c;
     ProductRow.variations_count := Clean.variations_count c;
     ProductRow.product_category := Clean.product_category c |}.

Definition brand_row (c : Clean.t) : BrandRow.t :=
  {| BrandRow.brand_id := Clean.brand_id c;
     BrandRow.brand_name := Clean.brand_name c |}.

Definition reviewer_row (c : Clean.t) : ReviewerRow.t :=
  {| ReviewerRow.reviewer_id := Clean.reviewer_id c;
     ReviewerRow.reviewer_skin_tone := Clean.reviewer_skin_tone c;
     ReviewerRow.reviewer_skin_type := Clean.reviewer_skin_type c;
     ReviewerRow.reviewer_eye_color := Clean.reviewer_eye_color c;
     ReviewerRow.reviewer_hair_color := Clean.reviewer_hair_color c |}.

Definition date_row (c : Clean.t) : DateRow.t :=
  {| DateRow.date_id := Clean.full_date c;
     DateRow.year := Clean.year c;
     DateRow.month := Clean.month c;
     DateRow.day := Clean.day c |}.

Definition product_key_eq_dec := option_eq_dec pystr_eq_dec.
Definition brand_key_eq_dec := option_eq_dec Z.eq_dec.
Definition date_key_eq_dec := option_eq_dec Timestamp_eq_dec.

(** The last part of [transform_data]: each table is a selection of
    columns of the cleaned [df_merged]; the dimension tables keep the first
    row of every key. *)
Definition make_tables (df_merged : list Clean.t) : Tables :=
  {| reviews_df := make_reviews df_merged;
     product_df :=
       drop_duplicates product_key_eq_dec ProductRow.product_id
         (map product_row df_merged);
     brand_df :=
       drop_duplicates brand_key_eq_dec BrandRow.brand_id
         (map brand_row df_merged);
     reviewer_df :=
       drop_duplicates pyval_eq_dec ReviewerRow.reviewer_id
         (map reviewer_row df_merged);
     date_df :=
       drop_duplicates date_key_eq_dec DateRow.date_id
         (map date_row df_merged) |}.

(** [def transform_data(df1, df2)] *)
Definition transform_data (df1 : list Product.t) (df2 : list Review.t)
  : result Tables :=
  df_merged <- cleaned (merge df1 df2) ;;
  Ok (make_tables df_merged).

End Transform.

(** ** The target schema *)

(** The constraints [CREATE_TABLE_QUERIES] declares on [tbl_brand]:
    [brand_id INT PRIMARY KEY] (not null, unique) and
    [brand_name TEXT UNIQUE] (unique among the non-null names). *)
Definition no_duplicates {A : Type} (A_eq_dec : forall x y : A, {x = y} + {x <> y})
    (l : list A) : bool :=
  (List.length (nodup A_eq_dec l) =? List.length l)%nat.

Definition tbl_brand_accepts (rows : list BrandRow.t) : bool :=
  forallb (fun b => is_some (BrandRow.brand_id b)) rows
  && no_duplicates Z.eq_dec (notna (map BrandRow.brand_id rows))
  && no_duplicates pystr_eq_dec (notna (map BrandRow.brand_name rows)).

(** ** A parser for ISO calendar dates

    [parse_iso_date] reads [YYYY-MM-DD], one of the forms [pd.to_datetime]
    accepts, and the strings that stand for NaT; it is used to run the
    transform on concrete tables. *)
Fixpoint decimal_value (acc : Z) (s : pystr) : option Z :=
  match s with
  | [] => Some acc
  | c :: s' => if is_ascii_digit c
               then decimal_value (10 * acc + Z.of_N (c - 48)) s'
               else None
  end.

Definition is_leap_year (y : Z) : bool :=
  ((y mod 4 =? 0) && (negb (y mod 100 =? 0) || (y mod 400 =? 0)))%Z.

Definition days_in_month (y m : Z) : Z :=
  if (m =? 2)%Z then (if is_leap_year y then 29 else 28)%Z
  else if ((m =? 4) || (m =? 6) || (m =? 9) || (m =? 11))%Z then 30%Z
  else 31%Z.

Definition nat_strings : list pystr :=
  [[]; lit "NaT"; lit "nat"; lit "NAT"; lit "nan"; lit "NaN"; lit "NAN"].

Definition parse_iso_date (s : pystr) : option (option Timestamp) :=
  if in_dec pystr_eq_dec s nat_strings then Some None
  else
    match s with
    | [y1; y2; y3; y4; 45%N; m1; m2; 45%N; d1; d2] =>
        match decimal_value 0 [y1; y2; y3; y4], decimal_value 0 [m1; m2],
              decimal_value 0 [d1; d2] with
        | Some y, Some m, Some d =>
            if ((1 <=? m) && (m <=? 12) && (1 <=? d) && (d <=? days_in_month y m))%Z
            then Some (Some (mkTimestamp y m d 0))
            else None
        | _, _, _ => None
        end
    | _ => None
    end.

(** ** Vocabulary of the statements *)

(** [v] is a most frequent non-null value of the column. *)
Definition most_frequent (v : pystr) (col : list (option pystr)) : Prop :=
  In (Some v) col /\
  forall w, (count_occ pystr_eq_dec (notna col) w
             <= count_occ pystr_eq_dec (notna col) v)%nat.

(** A merged row after the null handling, when the four categorical columns
    are filled with [tone], [eye], [type] and [hair]. *)
Definition filled_row (tone eye type hair : pystr) (m : Merged.t) : Merged.t :=
  Merged.set_reviewer_hair_color (fillna hair (Merged.reviewer_hair_color m))
    (Merged.set_reviewer_skin_type (fillna type (Merged.reviewer_skin_type m))
       (Merged.set_reviewer_eye_color (fillna eye (Merged.reviewer_eye_color m))
          (Merged.set_reviewer_skin_tone (fillna tone (Merged.reviewer_skin_tone m))
             (Merged.set_review_title
                (fillna review_title_placeholder (Merged.review_title m)) m)))).

(** The merged rows that reach the output: those with a [review_text] whose
    [reviewer_id] passes [checkNumeric]. *)
Definition surviving (df_merged : list Merged.t) : list Merged.t :=
  filter (fun m => checkNumeric (Merged.reviewer_id m))
         (dropna_review_text df_merged).

(** The row of the cleaned table that comes from the merged row [m], given
    the fill values, the parsed date and the converted identifier. *)
Definition cleaned_row (tone eye type hair : pystr) (m : Merged.t)
    (d : option Timestamp) (z : Z) : Clean.t :=
  Clean.set_reviewer_id (PyInt z) (dated_row (filled_row tone eye type hair m) d).

(** ** Example tables *)

Definition example_product (product_id : string) (brand_id : Z) : Product.t :=
  {| Product.product_id := Some (lit product_id);
     Product.brand_id := Some brand_id;
     Product.loves_count := Some 10%Z;
     Product.rating := None;
     Product.reviews := None;
     Product.primary_category := Some (lit "Skincare");
     Product.child_count := Some 0%Z |}.

Definition example_review (product_id : string) (author_id : pyval)
    (submission_time : string) (review_text skin_tone : option pystr)
    (brand_name : string) (price_usd : float64) : Review.t :=
  {| Review.author_id := author_id;
     Review.rating := Some 5%Z;
     Review.submission_time := Some (lit submission_time);
     Review.review_text := review_text;
     Review.review_title := None;
     Review.skin_tone := skin_tone;
     Review.eye_color := Some (lit "brown");
     Review.skin_type := Some (lit "dry");
     Review.hair_color := Some (lit "black");
     Review.product_id := Some (lit product_id);
     Review.product_name := Some (lit "Cream");
     Review.brand_name := Some (lit brand_name);
     Review.price_usd := Some price_usd |}.

Definition example_products : list Product.t :=
  [example_product "P1" 7; example_product "P2" 8].

(** Two accepted reviews of product P1 with different prices and brand
    spellings, one review with a non-numeric author, one review by author 100
    given as an [int], one review without text and one review of a product
    that is not in [example_products]. *)
Definition example_reviews : list Review.t :=
  [example_review "P1" (PyStr (lit "100")) "2023-02-01" (Some (lit "Great")) None "Acme" 10%Z;
   example_review "P1" (PyStr (lit "abc")) "2023-02-02" (Some (lit "Bad")) (Some (lit "fair")) "Acme" 11%Z;
   example_review "P1" (PyStr (lit "200")) "2023-02-02" (Some (lit "Fine")) (Some (lit "fair")) "ACME" 12%Z;
   example_review "P2" (PyInt 100) "2023-02-03" (Some (lit "Nice")) (Some (lit "dark")) "Acme" 20%Z;
   example_review "P2" (PyStr (lit "300")) "2023-02-03" None (Some (lit "dark")) "Acme" 20%Z;
   example_review "P3" (PyStr (lit "400")) "2023-02-04" (Some (lit "Lost")) (Some (lit "dark")) "Zeta" 30%Z].

Definition no_tables : Tables := mkTables [] [] [] [] [].

Definition tables_of (r : result Tables) : Tables :=
  match r with Ok t => t | Raise _ => no_tables end.

Definition rows_of (r : result (list Clean.t)) : list Clean.t :=
  match r with Ok l => l | Raise _ => [] end.

Definition example_clean : list Clean.t :=
  Eval vm_compute in
    rows_of (cleaned parse_iso_date (merge example_products example_reviews)).

Definition example_tables : Tables :=
  Eval vm_compute in
    tables_of (transform_data parse_iso_date example_products example_reviews).





(** One review whose text is the empty string. *)
Definition empty_text_reviews : list Review.t :=
  [example_review "P1" (PyStr (lit "100")) "2023-02-01" (Some []) (Some (lit "fair")) "Acme" 10%Z].

Definition empty_text_tables : Tables :=
  Eval vm_compute in
    tables_of (transform_data parse_iso_date example_products empty_text_reviews).

(** One review whose author is the one-character string U+0663, the
    Arabic-Indic digit three. *)
Definition arabic_three : pystr := [1635%N].

Definition arabic_digit_reviews : list Review.t :=
  [example_review "P1" (PyStr arabic_three) "2023-02-01" (Some (lit "Great")) (Some (lit "fair")) "Acme" 10%Z].

Definition arabic_digit_tables : Tables :=
  Eval vm_compute in
    tables_of (transform_data parse_iso_date example_products arabic_digit_reviews).

(** One review whose author is the one-character string U+00B2, the
    superscript two. *)
Definition superscript_two : pystr := [178%N].

Definition superscript_reviews : list Review.t :=
  [example_review "P1" (PyStr superscript_two) "2023-02-01" (Some (lit "Great")) (Some (lit "fair")) "Acme" 10%Z].

(** Reviews without any skin tone. *)
Definition no_tone_reviews : list Review.t :=
  [example_review "P1" (PyStr (lit "100")) "2023-02-01" (Some (lit "Great")) None "Acme" 10%Z;
   example_review "P2" (PyStr (lit "200")) "2023-02-02" (Some (lit "Fine")) None "Acme" 20%Z].


(** ** Vocabulary of the outcome of the transform *)

(** Among the merged rows that have a [review_text], each of the four
    categorical reviewer columns has a non-null value. *)
Definition columns_have_values (df_merged : list Merged.t) : Prop :=
  notna (map Merged.reviewer_skin_tone (dropna_review_text df_merged)) <> [] /\
  notna (map Merged.reviewer_eye_color (dropna_review_text df_merged)) <> [] /\
  notna (map Merged.reviewer_skin_type (dropna_review_text df_merged)) <> [] /\
  notna (map Merged.reviewer_hair_color (dropna_review_text df_merged)) <> [].

(** One of the four columns has no non-null value. *)
Definition some_column_empty (df_merged : list Merged.t) : Prop :=
  notna (map Merged.reviewer_skin_tone (dropna_review_text df_merged)) = [] \/
  notna (map Merged.reviewer_eye_color (dropna_review_text df_merged)) = [] \/
  notna (map Merged.reviewer_skin_type (dropna_review_text df_merged)) = [] \/
  notna (map Merged.reviewer_hair_color (dropna_review_text df_merged)) = [].

(** Every submission time of a merged row with a [review_text] is read by
    the parser. *)
Definition dates_parse (parse_datetime : pystr -> option (option Timestamp))
    (df_merged : list Merged.t) : Prop :=
  forall m s, In m (dropna_review_text df_merged) ->
              Merged.full_date m = Some s -> parse_datetime s <> None.

(** Some merged row with a [review_text] has a submission time that the
    parser rejects. *)
Definition some_date_fails (parse_datetime : pystr -> option (option Timestamp))
    (df_merged : list Merged.t) : Prop :=
  exists m s, In m (dropna_review_text df_merged) /\
              Merged.full_date m = Some s /\ parse_datetime s = None.

(** [int] converts the identifier of every surviving merged row. *)
Definition identifiers_convert (df_merged : list Merged.t) : Prop :=
  forall m, In m (surviving df_merged) ->
            exists z, py_int (Merged.reviewer_id m) = Ok z.

(** [int] raises on the identifier of some surviving merged row. *)
Definition some_identifier_fails (df_merged : list Merged.t) : Prop :=
  exists m e, In m (surviving df_merged) /\ py_int (Merged.reviewer_id m) = Raise e.

(** The integer that a string of Unicode decimal digits denotes: its digits
    read from left to right in base 10. *)
Definition unicode_int_value (s : pystr) : Z :=
  fold_left (fun acc c =>
               (10 * acc + Z.of_N (match unicode_decimal c with
                                   | Some d => d
                                   | None => 0%N
                                   end))%Z) s 0%Z.

(** ** Load step *)

(** A Python value passed to [cur.execute] as a query parameter.  [PNull]
    is what a null cell holds (NaN, None or NaT). *)
Inductive param : Type :=
| PNull
| PInt (z : Z)
| PFloat (f : float64)
| PStr (s : pystr)
| PTimestamp (t : Timestamp).

Definition param_of {A : Type} (inj : A -> param) (cell : option A) : param :=
  match cell with
  | Some x => inj x
  | None => PNull
  end.

Definition param_of_pyval (v : pyval) : param :=
  match v with
  | PyNaN => PNull
  | PyInt z => PInt z
  | PyStr s => PStr s
  end.

(** [list(row)] for a row of each output table: its cells in column
    order. *)
Definition product_params (r : ProductRow.t) : list param :=
  [param_of PStr (ProductRow.product_id r);
   param_of PStr (ProductRow.product_name r);
   param_of PFloat (ProductRow.avg_product_rating r);
   param_of PFloat (ProductRow.product_price r);
   param_of PFloat (ProductRow.product_reviews_count r);
   param_of PInt (ProductRow.favorites_count r);
   param_of PInt (ProductRow.variations_count r);
   param_of PStr (ProductRow.product_category r)].

Definition brand_params (r : BrandRow.t) : list param :=
  [param_of PInt (BrandRow.brand_id r); param_of PStr (BrandRow.brand_name r)].

Definition reviewer_params (r : ReviewerRow.t) : list param :=
  [param_of_pyval (ReviewerRow.reviewer_id r);
   param_of PStr (ReviewerRow.reviewer_skin_tone r);
   param_of PStr (ReviewerRow.reviewer_skin_type r);
   param_of PStr (ReviewerRow.reviewer_eye_color r);
   param_of PStr (ReviewerRow.reviewer_hair_color r)].

Definition date_params (r : DateRow.t) : list param :=
  [param_of PTimestamp (DateRow.date_id r);
   param_of PInt (DateRow.year r);
   param_of PInt (DateRow.month r);
   param_of PInt (DateRow.day r)].

Definition reviews_params (r : ReviewsRow.t) : list param :=
  [PInt (ReviewsRow.review_id r);
   param_of PStr (ReviewsRow.product_id r);
   param_of PInt (ReviewsRow.brand_id r);
   param_of_pyval (ReviewsRow.reviewer_id r);
   param_of PTimestamp (ReviewsRow.date_id r);
   param_of PStr (ReviewsRow.review_title r);
   param_of PStr (ReviewsRow.review_text r);
   param_of PInt (ReviewsRow.review_rating r)].

(** The layout of the triple-quoted query literals of the notebook: a
    blank and a line break, the statement indented by eight blanks, a line
    break and eight blanks. *)
Definition query_literal (statement : string) : string :=
  (" " ++ String (ascii_of_nat 10) "        " ++ statement
       ++ String (ascii_of_nat 10) "        ")%string.

(** The dictionary [INSERT_TABLE_QUERIES]; a key that is not in it gives
    [None]. *)
Definition INSERT_TABLE_QUERIES (key : string) : option string :=
  if (key =? "product")%string then
    Some (query_literal "INSERT INTO tbl_product(product_id, product_name, avg_product_rating, product_price, product_reviews_count, favorites_count, variations_count, product_category) VALUES (%s,%s,%s,%s,%s,%s,%s,%s)")
  else if (key =? "brand")%string then
    Some (query_literal "INSERT INTO tbl_brand(brand_id, brand_name) VALUES (%s,%s)")
  else if (key =? "reviewer")%string then
    Some (query_literal "INSERT INTO tbl_reviewer(reviewer_id, reviewer_skin_tone, reviewer_skin_type, reviewer_eye_color, reviewer_hair_color) VALUES (%s,%s,%s,%s,%s)")
  else if (key =? "date")%string then
    Some (query_literal "INSERT INTO tbl_date(date_id, year, month, day) VALUES (%s,%s,%s,%s)")
  else if (key =? "reviews")%string then
    Some (query_literal "INSERT INTO tbl_product_reviews(review_id, product_id, brand_id, reviewer_id, date_id, review_title, review_text, review_rating) VALUES (%s,%s,%s,%s,%s,%s,%s,%s)")
  else None.

Section Load.

(** The content of the warehouse, and what the server does with one
    statement inside a transaction: the new content, or [None] when the
    statement fails and [cur.execute] raises.  Both belong to the database
    server; the load step is modelled for any server. *)
Variable database : Type.
Variable run_statement : string -> list param -> database -> option database.

(** A connection with its cursor: the content last committed and the
    content as the open transaction sees it.  Committing and rolling back
    are taken to succeed. *)
Record connection : Type := mkConnection
  { committed : database;
    in_transaction : database }.

(** [conn.commit()] *)
Definition commit (conn : connection) : connection :=
  mkConnection (in_transaction conn) (in_transaction conn).

(** [conn.rollback()] *)
Definition rollback (conn : connection) : connection :=
  mkConnection (committed conn) (committed conn).

(** [cur.execute(query, params)]; [None] stands for the exception. *)
Definition execute (query : string) (params : list param) (conn : connection)
  : option connection :=
  match run_statement query params (in_transaction conn) with
  | Some db => Some (mkConnection (committed conn) db)
  | None => None
  end.

(** [for query in queries: cur.execute(query)] *)
Fixpoint execute_queries (queries : list string) (conn : connection)
  : option connection :=
  match queries with
  | [] => Some conn
  | query :: queries' =>
      match execute query [] conn with
      | Some conn' => execute_queries queries' conn'
      | None => None
      end
  end.

(** [def create_tables(cur, conn, create_table_queries)]: the queries are
    executed and committed; any exception is caught and followed by a
    rollback. *)
Definition create_tables (conn : connection) (create_table_queries : list string)
  : connection :=
  match execute_queries create_table_queries conn with
  | Some conn' => commit conn'
  | None => rollback conn
  end.

(** [def drop_existing_tables(cur, conn, drop_table_queries)] *)
Definition drop_existing_tables (conn : connection) (drop_table_queries : list string)
  : connection :=
  match execute_queries drop_table_queries conn with
  | Some conn' => commit conn'
  | None => rollback conn
  end.

(** [def truncate_existing_tables(cur, conn, truncate_table_queries)] *)
Definition truncate_existing_tables (conn : connection)
    (truncate_table_queries : list string) : connection :=
  match execute_queries truncate_table_queries conn with
  | Some conn' => commit conn'
  | None => rollback conn
  end.

(** [for i, row in df.iterrows(): cur.execute(insert_table_queries[key],
    list(row))].  The dictionary is read once per row; a missing key raises
    like a failing statement. *)
Fixpoint insert_rows (insert_table_queries : string -> option string)
    (key : string) (rows : list (list param)) (conn : connection)
  : option connection :=
  match rows with
  | [] => Some conn
  | row :: rows' =>
      match insert_table_queries key with
      | Some query =>
          match execute query row conn with
          | Some conn' => insert_rows insert_table_queries key rows' conn'
          | None => None
          end
      | None => None
      end
  end.

Definition and_then {A B : Type} (o : option A) (k : A -> option B) : option B :=
  match o with
  | Some a => k a
  | None => None
  end.

(** [def insert_data_to_tables(cur, conn, insert_table_queries, product_df,
    brand_df, reviewer_df, date_df, reviews_df)]: the five loops and the
    commit form the [try] block; the [except] clause rolls back.  The
    variable [last_val] is only printed and is left out with the prints. *)
Definition insert_data_to_tables (conn : connection)
    (insert_table_queries : string -> option string)
    (product_df : list ProductRow.t) (brand_df : list BrandRow.t)
    (reviewer_df : list ReviewerRow.t) (date_df : list DateRow.t)
    (reviews_df : list ReviewsRow.t) : connection :=
  match
    and_then (insert_rows insert_table_queries "product"
                (map product_params product_df) conn) (fun conn1 =>
    and_then (insert_rows insert_table_queries "brand"
                (map brand_params brand_df) conn1) (fun conn2 =>
    and_then (insert_rows insert_table_queries "reviewer"
                (map reviewer_params reviewer_df) conn2) (fun conn3 =>
    and_then (insert_rows insert_table_queries "date"
                (map date_params date_df) conn3) (fun conn4 =>
    and_then (insert_rows insert_table_queries "reviews"
                (map reviews_params reviews_df) conn4) (fun conn5 =>
    Some (commit conn5))))))
  with
  | Some conn' => conn'
  | None => rollback conn
  end.

(** The statements of a load, in the order in which
    [insert_data_to_tables] issues them: dictionary key and parameters. *)
Definition insert_statements (product_df : list ProductRow.t)
    (brand_df : list BrandRow.t) (reviewer_df : list ReviewerRow.t)
    (date_df : list DateRow.t) (reviews_df : list ReviewsRow.t)
  : list (string * list param) :=
  map (fun r => ("product"%string, product_params r)) product_df
  ++ map (fun r => ("brand"%string, brand_params r)) brand_df
  ++ map (fun r => ("reviewer"%string, reviewer_params r)) reviewer_df
  ++ map (fun r => ("date"%string, date_params r)) date_df
  ++ map (fun r => ("reviews"%string, reviews_params r)) reviews_df.

(** The content after a sequence of statements in one transaction, or
    [None] as soon as one fails. *)
Fixpoint run_all (insert_table_queries : string -> option string)
    (statements : list (string * list param)) (db : database) : option database :=
  match statements with
  | [] => Some db
  | (key, params) :: statements' =>
      match insert_table_queries key with
      | Some query =>
          match run_statement query params db with
          | Some db' => run_all insert_table_queries statements' db'
          | None => None
          end
      | None => None
      end
  end.

(** The same for queries without parameters. *)
Fixpoint run_queries (queries : list string) (db : database) : option database :=
  match queries with
  | [] => Some db
  | query :: queries' =>
      match run_statement query [] db with
      | Some db' => run_queries queries' db'
      | None => None
      end
  end.

End Load.

(** A server that keeps the statements it has run and refuses a statement
    it has run before; it is used to run the load step on concrete
    tables. *)
Definition param_eq_dec : forall p q : param, {p = q} + {p <> q}.
Proof.
  decide equality;
    [apply Z.eq_dec | apply Z.eq_dec | apply pystr_eq_dec | apply Timestamp_eq_dec].
Defined.

Definition statement_eq_dec :
  forall x y : string * list param, {x = y} + {x <> y}.
Proof.
  decide equality; [apply (list_eq_dec param_eq_dec) | apply string_dec].
Defined.

Definition statement_log : Type := list (string * list param).

Definition log_statement (query : string) (params : list param) (db : statement_log)
  : option statement_log :=
  if in_dec statement_eq_dec (query, params) db
  then None
  else Some (db ++ [(query, params)]).




(** The query that [INSERT_TABLE_QUERIES] holds under a key (the empty
    string for a key it does not have). *)
Definition insert_query (key : string) : string :=
  match INSERT_TABLE_QUERIES key with
  | Some query => query
  | None => EmptyString
  end.

(** Whether the statements run so far include [query] with [key] as its
    first parameter.  The first column of each dimension table is its
    primary key. *)
Definition has_key (query : string) (key : param) (db : statement_log) : bool :=
  existsb (fun st =>
             (fst st =? query)%string &&
             match snd st with
             | k :: _ => if param_eq_dec k key then true else false
             | [] => false
             end) db.

(** A server that enforces the four [REFERENCES] clauses that
    [CREATE_TABLE_QUERIES] declares on [tbl_product_reviews], and nothing
    else: it refuses the INSERT of a review row unless rows with its
    [product_id], [brand_id], [reviewer_id] and [date_id] (parameters two to
    five) have been inserted into the four dimension tables; every other
    statement is accepted.  A null key is looked up like any other value,
    which is stricter than SQL. *)
Definition references_statement (query : string) (params : list param)
    (db : statement_log) : option statement_log :=
  if (query =? insert_query "reviews")%string then
    match params with
    | _ :: product_id :: brand_id :: reviewer_id :: date_id :: _ =>
        if has_key (insert_query "product") product_id db
           && has_key (insert_query "brand") brand_id db
           && has_key (insert_query "reviewer") reviewer_id db
           && has_key (insert_query "date") date_id db
        then Some (db ++ [(query, params)])
        else None
    | _ => None
    end
  else Some (db ++ [(query, params)]).

(** * Properties *)

(** ** The error monad *)

Lemma bind_Ok {A B : Type} (r : result A) (k : A -> result B) (b : B) :
  bind r k = Ok b -> exists a, r = Ok a /\ k a = Ok b.
Proof.
  destruct r as [a | e]; simpl; intros H; [eauto | discriminate].
Qed.

Lemma mapM_Forall2 {A B : Type} (f : A -> result B) (l : list A) (l' : list B) :
  mapM f l = Ok l' -> Forall2 (fun x y => f x = Ok y) l l'.
Proof.
  revert l'; induction l as [| x xs IH]; simpl; intros l' H.
  - injection H as <-. constructor.
  - apply bind_Ok in H. destruct H as (y & Hy & H).
    apply bind_Ok in H. destruct H as (ys & Hys & H).
    injection H as <-. constructor; auto.
Qed.


Lemma Forall2_filter {A B : Type} (R : A -> B -> Prop) (p : A -> bool) (q : B -> bool)
    (l : list A) (l' : list B) :
  (forall x y, R x y -> p x = q y) ->
  Forall2 R l l' -> Forall2 R (filter p l) (filter q l').
Proof.
  intros Hpq H. induction H as [| x y l l' Hxy _ IH]; simpl; [constructor |].
  rewrite <- (Hpq x y Hxy). destruct (p x); [constructor |]; auto.
Qed.

Lemma Forall2_map_l {A B C : Type} (R : B -> C -> Prop) (f : A -> B)
    (l : list A) (l' : list C) :
  Forall2 R (map f l) l' <-> Forall2 (fun x y => R (f x) y) l l'.
Proof.
  split.
  - revert l'; induction l as [| x l IH]; simpl; intros l' H; inversion H; subst;
      constructor; auto.
  - induction 1; simpl; constructor; auto.
Qed.

Lemma Forall2_impl {A B : Type} (R S : A -> B -> Prop) (l : list A) (l' : list B) :
  (forall x y, In x l -> R x y -> S x y) -> Forall2 R l l' -> Forall2 S l l'.
Proof.
  intros HRS H. induction H as [| x y l l' Hxy _ IH]; constructor.
  - apply HRS; simpl; auto.
  - apply IH. intros; apply HRS; simpl; auto.
Qed.

Lemma Forall2_In_r {A B : Type} (R : A -> B -> Prop) (l : list A) (l' : list B) (y : B) :
  Forall2 R l l' -> In y l' -> exists x, In x l /\ R x y.
Proof.
  induction 1 as [| x y' l l' Hxy _ IH]; simpl; [contradiction |].
  intros [<- | Hin]; [eauto |].
  destruct (IH Hin) as (x' & ? & ?). eauto.
Qed.

(** ** [drop_duplicates] *)

Section DropDuplicatesFacts.
Variables (A K : Type).
Variable K_eq_dec : forall x y : K, {x = y} + {x <> y}.
Variable key : A -> K.

Local Abbreviation from := (drop_duplicates_from K_eq_dec key).

(** A row is kept exactly when it is the first row of its key and the key
    has not been seen before. *)
Lemma drop_duplicates_from_In (seen : list K) (rows : list A) (r : A) :
  In r (from seen rows) <->
  exists l1 l2, rows = l1 ++ r :: l2 /\ ~ In (key r) seen
                /\ ~ In (key r) (map key l1).
Proof.
  revert seen; induction rows as [| a rows IH]; intros seen; simpl.
  - split; [contradiction |].
    intros (l1 & l2 & H & _). destruct l1; discriminate.
  - destruct (in_dec K_eq_dec (key a) seen) as [Hsee | Hnew].
    + rewrite IH. split.
      * intros (l1 & l2 & -> & Hs & Hl).
        exists (a :: l1), l2. repeat split; auto.
        simpl. intros [E | ?]; [| tauto]. apply Hs. rewrite <- E. exact Hsee.
      * intros (l1 & l2 & E & Hs & Hl). destruct l1 as [| b l1]; simpl in E.
        -- injection E as -> _. contradiction.
        -- injection E as -> ->. exists l1, l2. simpl in Hl. tauto.
    + simpl. rewrite IH. split.
      * intros [-> | (l1 & l2 & -> & Hs & Hl)].
        -- exists [], rows. simpl. tauto.
        -- exists (a :: l1), l2. simpl in *. tauto.
      * intros (l1 & l2 & E & Hs & Hl). destruct l1 as [| b l1]; simpl in E.
        -- injection E as -> _. auto.
        -- injection E as -> ->. right. exists l1, l2. simpl in *. tauto.
Qed.

Lemma drop_duplicates_from_keys (seen : list K) (rows : list A) (k : K) :
  In k (map key rows) -> ~ In k seen -> In k (map key (from seen rows)).
Proof.
  revert seen; induction rows as [| a rows IH]; intros seen; simpl; [tauto |].
  intros Hin Hs. destruct (in_dec K_eq_dec (key a) seen) as [Hsee | Hnew].
  - apply IH; auto. destruct Hin as [<- | ?]; [contradiction | assumption].
  - simpl. destruct (K_eq_dec (key a) k) as [E | NE]; [auto |].
    right. apply IH.
    + destruct Hin; [contradiction | assumption].
    + simpl. tauto.
Qed.

Lemma drop_duplicates_from_NoDup (seen : list K) (rows : list A) :
  NoDup (map key (from seen rows)).
Proof.
  revert seen; induction rows as [| a rows IH]; intros seen; simpl.
  - constructor.
  - destruct (in_dec K_eq_dec (key a) seen) as [Hsee | Hnew]; [apply IH |].
    simpl. constructor; [| apply IH].
    intros Hin. apply in_map_iff in Hin. destruct Hin as (r & E & Hr).
    apply drop_duplicates_from_In in Hr. destruct Hr as (_ & _ & _ & Hs & _).
    apply Hs. simpl. auto.
Qed.


Lemma drop_duplicates_NoDup (rows : list A) :
  NoDup (map key (drop_duplicates K_eq_dec key rows)).
Proof. apply drop_duplicates_from_NoDup. Qed.

Lemma drop_duplicates_keys (rows : list A) (k : K) :
  In k (map key rows) -> In k (map key (drop_duplicates K_eq_dec key rows)).
Proof. intros H. apply drop_duplicates_from_keys; simpl; auto. Qed.

Lemma drop_duplicates_incl (rows : list A) (r : A) :
  In r (drop_duplicates K_eq_dec key rows) -> In r rows.
Proof.
  intros H. apply drop_duplicates_from_In in H.
  destruct H as (l1 & l2 & -> & _). apply in_elt.
Qed.


Lemma drop_duplicates_count (rows : list A) (k : K) :
  In k (map key rows) ->
  count_occ K_eq_dec (map key (drop_duplicates K_eq_dec key rows)) k = 1%nat.
Proof.
  intros H. apply NoDup_count_occ'.
  - apply drop_duplicates_NoDup.
  - apply drop_duplicates_keys. exact H.
Qed.
End DropDuplicatesFacts.

Lemma Forall2_trans {A B C : Type} (R : A -> B -> Prop) (S : B -> C -> Prop)
    (l1 : list A) (l2 : list B) (l3 : list C) :
  Forall2 R l1 l2 -> Forall2 S l2 l3 ->
  Forall2 (fun x z => exists y, R x y /\ S y z) l1 l3.
Proof.
  intros H; revert l3; induction H as [| x y l1 l2 Hxy _ IH]; intros l3 H';
    inversion H'; subst; constructor; eauto.
Qed.

(** ** [mode] *)

Lemma In_notna {A : Type} (col : list (option A)) (v : A) :
  In v (notna col) <-> In (Some v) col.
Proof.
  induction col as [| [x |] col IH]; simpl.
  - tauto.
  - rewrite IH. split; intros [E | ?]; auto; left; congruence.
  - rewrite IH. split; [auto | intros [E | ?]; [discriminate | auto]].
Qed.

Lemma insert_sorted_In (s : pystr) (l : list pystr) (x : pystr) :
  In x (insert_sorted s l) <-> x = s \/ In x l.
Proof.
  induction l as [| t l IH]; simpl.
  - intuition.
  - destruct (pystr_leb s t); simpl; [intuition |].
    rewrite IH. intuition.
Qed.

Lemma sort_values_In (l : list pystr) (x : pystr) :
  In x (sort_values l) <-> In x l.
Proof.
  induction l as [| a l IH]; simpl; [tauto |].
  rewrite insert_sorted_In, IH. intuition.
Qed.

Lemma fold_max_ge (l : list nat) (n : nat) :
  In n l -> (n <= fold_right Nat.max 0 l)%nat.
Proof.
  induction l as [| a l IH]; simpl; [contradiction |].
  intros [-> | H]; [lia |]. specialize (IH H). lia.
Qed.

Lemma mode_most_frequent (col : list (option pystr)) (v : pystr) :
  In v (mode col) -> most_frequent v col.
Proof.
  unfold mode, most_frequent. rewrite sort_values_In, filter_In, nodup_In.
  intros [Hv Htop]. apply Nat.eqb_eq in Htop. split.
  - apply In_notna. exact Hv.
  - intros w. rewrite Htop.
    destruct (in_dec pystr_eq_dec w (notna col)) as [Hw | Hw].
    + apply fold_max_ge. apply in_map. apply nodup_In. exact Hw.
    + apply (count_occ_not_In pystr_eq_dec) in Hw. rewrite Hw. lia.
Qed.

Lemma item0_mode (col : list (option pystr)) (v : pystr) :
  item0 (mode col) = Ok v -> most_frequent v col.
Proof.
  intros H. apply mode_most_frequent.
  destruct (mode col) as [| a l]; [discriminate |].
  injection H as ->. simpl. auto.
Qed.

Lemma mode_no_values (col : list (option pystr)) :
  notna col = [] -> mode col = [].
Proof. unfold mode. intros ->. reflexivity. Qed.

Lemma item0_raise (l : list pystr) (e : exn) : item0 l = Raise e -> e = KeyError.
Proof. destruct l; simpl; congruence. Qed.

Lemma fold_max_attained (l : list nat) :
  l <> [] -> In (fold_right Nat.max 0%nat l) l.
Proof.
  induction l as [| a l IH]; [congruence |]. intros _. simpl.
  destruct l as [| b l].
  - left. simpl. lia.
  - destruct (Nat.max_spec a (fold_right Nat.max 0%nat (b :: l))) as [[_ E] | [_ E]];
      rewrite E.
    + right. apply IH. discriminate.
    + left. reflexivity.
Qed.

(** The mode exists as soon as the column has a non-null value. *)
Lemma mode_defined (col : list (option pystr)) :
  notna col <> [] -> exists v, item0 (mode col) = Ok v.
Proof.
  intros Hne.
  assert (Hv : exists v, In v (mode col)).
  { unfold mode.
    set (values := notna col) in *.
    set (uniques := nodup pystr_eq_dec values).
    assert (Hu : map (count_occ pystr_eq_dec values) uniques <> []).
    { destruct values as [| a l] eqn:E; [congruence |].
      assert (Ha : In a uniques) by (apply nodup_In; simpl; auto).
      destruct uniques; [contradiction | discriminate]. }
    apply fold_max_attained in Hu. apply in_map_iff in Hu.
    destruct Hu as (v & Hcount & Hin).
    exists v. apply sort_values_In. apply filter_In. split; [exact Hin |].
    apply Nat.eqb_eq. exact Hcount. }
  destruct Hv as (v & Hv). destruct (mode col) as [| a l]; [contradiction |].
  exists a. reflexivity.
Qed.

Lemma pystr_leb_refl (s : pystr) : pystr_leb s s = true.
Proof.
  induction s as [| a s IH]; simpl; [reflexivity |].
  rewrite N.ltb_irrefl. exact IH.
Qed.

Lemma pystr_leb_total (s t : pystr) : pystr_leb s t = false -> pystr_leb t s = true.
Proof.
  revert t; induction s as [| a s IH]; intros [| b t]; simpl; try congruence.
  destruct (N.ltb_spec a b); [discriminate |].
  destruct (N.ltb_spec b a); [reflexivity |]. apply IH.
Qed.

Lemma pystr_leb_trans (s t u : pystr) :
  pystr_leb s t = true -> pystr_leb t u = true -> pystr_leb s u = true.
Proof.
  revert t u; induction s as [| a s IH]; intros [| b t] [| c u]; simpl; try congruence.
  destruct (N.ltb_spec a b), (N.ltb_spec b c), (N.ltb_spec a c); try reflexivity;
    try lia; destruct (N.ltb_spec b a), (N.ltb_spec c b), (N.ltb_spec c a);
    try discriminate; try lia.
  apply IH.
Qed.

(** The first value of a sorted column is its least value. *)
Lemma sort_values_least (l : list pystr) (v : pystr) (r : list pystr) :
  sort_values l = v :: r -> forall w, In w l -> pystr_leb v w = true.
Proof.
  revert v r; induction l as [| a l IH]; simpl; intros v r E w Hw; [contradiction |].
  destruct (sort_values l) as [| t l'] eqn:Es; simpl in E.
  - injection E as <- <-.
    assert (Hl : l = []).
    { destruct l as [| b l]; [reflexivity |].
      assert (Hb : In b (sort_values (b :: l))) by (apply sort_values_In; simpl; auto).
      rewrite Es in Hb. contradiction. }
    subst l. destruct Hw as [<- | []]. apply pystr_leb_refl.
  - specialize (IH t l' eq_refl).
    destruct (pystr_leb a t) eqn:Eat; injection E as <- <-.
    + destruct Hw as [<- | Hw]; [apply pystr_leb_refl |].
      eapply pystr_leb_trans; [exact Eat | auto].
    + destruct Hw as [<- | Hw]; [apply pystr_leb_total; exact Eat | auto].
Qed.

(** [mode()[0]] is the least of the most frequent values. *)
Lemma item0_mode_least (col : list (option pystr)) (v : pystr) :
  item0 (mode col) = Ok v ->
  forall w, most_frequent w col -> pystr_leb v w = true.
Proof.
  intros H w [Hw Hmax].
  destruct (mode col) as [| a r] eqn:E; [discriminate |]. injection H as ->.
  pose proof (mode_most_frequent col v) as Hv.
  rewrite E in Hv. specialize (Hv (or_introl eq_refl)). destruct Hv as [_ Hvmax].
  unfold mode in E. eapply sort_values_least; [exact E |].
  apply filter_In. apply In_notna in Hw. split; [apply nodup_In; exact Hw |].
  apply Nat.eqb_eq. apply Nat.le_antisymm.
  - apply fold_max_ge. apply in_map. apply nodup_In. exact Hw.
  - assert (Hva : In v (v :: r)) by (simpl; auto).
    rewrite <- E in Hva. rewrite sort_values_In, filter_In in Hva.
    destruct Hva as [_ Hva]. apply Nat.eqb_eq in Hva. rewrite <- Hva. apply Hmax.
Qed.

(** ** The cleaning steps *)

Lemma fill_with_mode_Ok (get : Merged.t -> option pystr)
    (set : option pystr -> Merged.t -> Merged.t) (df df' : list Merged.t) :
  fill_with_mode get set df = Ok df' ->
  exists v, item0 (mode (map get df)) = Ok v /\
            df' = map (fun m => set (fillna v (get m)) m) df.
Proof.
  unfold fill_with_mode. intros H. apply bind_Ok in H.
  destruct H as (v & Hv & H). injection H as <-. eauto.
Qed.

Lemma fill_with_mode_Raise (get : Merged.t -> option pystr)
    (set : option pystr -> Merged.t -> Merged.t) (df : list Merged.t) (e : exn) :
  fill_with_mode get set df = Raise e -> e = KeyError.
Proof.
  unfold fill_with_mode. destruct (item0 (mode (map get df))) eqn:E; simpl.
  - discriminate.
  - intros H. injection H as <-. eapply item0_raise; eauto.
Qed.

Lemma fill_with_mode_no_values (get : Merged.t -> option pystr)
    (set : option pystr -> Merged.t -> Merged.t) (df : list Merged.t) :
  notna (map get df) = [] -> fill_with_mode get set df = Raise KeyError.
Proof.
  intros H. unfold fill_with_mode. rewrite (mode_no_values _ H). reflexivity.
Qed.

(** The null handling returns the rows that have a [review_text], each one
    filled with the placeholder title and with the modes of the four
    categorical columns; every mode is taken over those same rows. *)
Lemma fill_missing_Ok (df_merged filled : list Merged.t) :
  fill_missing df_merged = Ok filled ->
  exists tone eye type hair,
    let rows := dropna_review_text df_merged in
    item0 (mode (map Merged.reviewer_skin_tone rows)) = Ok tone /\
    item0 (mode (map Merged.reviewer_eye_color rows)) = Ok eye /\
    item0 (mode (map Merged.reviewer_skin_type rows)) = Ok type /\
    item0 (mode (map Merged.reviewer_hair_color rows)) = Ok hair /\
    filled = map (filled_row tone eye type hair) rows.
Proof.
  unfold fill_missing. intros H.
  apply bind_Ok in H. destruct H as (d1 & H1 & H).
  apply bind_Ok in H. destruct H as (d2 & H2 & H).
  apply bind_Ok in H. destruct H as (d3 & H3 & H4).
  apply fill_with_mode_Ok in H1. destruct H1 as (tone & Htone & ->).
  apply fill_with_mode_Ok in H2. destruct H2 as (eye & Heye & ->).
  apply fill_with_mode_Ok in H3. destruct H3 as (type & Htype & ->).
  apply fill_with_mode_Ok in H4. destruct H4 as (hair & Hhair & ->).
  rewrite !map_map in *. simpl in *.
  exists tone, eye, type, hair. repeat split; assumption || reflexivity.
Qed.

(** Whatever the null handling raises is the [KeyError] of an empty mode. *)
Lemma fill_missing_Raise (df_merged : list Merged.t) (e : exn) :
  fill_missing df_merged = Raise e -> e = KeyError.
Proof.
  unfold fill_missing. intros H.
  repeat match type of H with
         | bind ?r _ = Raise _ =>
             let E := fresh "E" in
             destruct r eqn:E; simpl in H;
             [| injection H as <-; eapply fill_with_mode_Raise; eassumption]
         end.
  eapply fill_with_mode_Raise; eassumption.
Qed.

Section CleaningFacts.
Variable parse_datetime : pystr -> option (option Timestamp).

Lemma derive_dates_Ok (df : list Merged.t) (dated : list Clean.t) :
  derive_dates parse_datetime df = Ok dated ->
  Forall2 (fun m c => exists d, to_datetime parse_datetime (Merged.full_date m) = Ok d
                                /\ c = dated_row m d) df dated.
Proof.
  intros H. apply mapM_Forall2 in H.
  eapply Forall2_impl; [| exact H]. simpl. intros m c _ Hmc.
  apply bind_Ok in Hmc. destruct Hmc as (d & Hd & E). injection E as <-. eauto.
Qed.

Lemma reviewer_id_to_int_Ok (df df' : list Clean.t) :
  reviewer_id_to_int df = Ok df' ->
  Forall2 (fun c c' => exists z, py_int (Clean.reviewer_id c) = Ok z
                                 /\ c' = Clean.set_reviewer_id (PyInt z) c) df df'.
Proof.
  intros H. apply mapM_Forall2 in H.
  eapply Forall2_impl; [| exact H]. simpl. intros c c' _ Hc.
  apply bind_Ok in Hc. destruct Hc as (z & Hz & E). injection E as <-. eauto.
Qed.

(** What the cleaned table is made of: row for row, the surviving merged
    rows, filled, dated and with their identifier converted. *)
Lemma cleaned_Ok (df_merged : list Merged.t) (df_clean : list Clean.t) :
  cleaned parse_datetime df_merged = Ok df_clean ->
  exists tone eye type hair,
    let rows := dropna_review_text df_merged in
    item0 (mode (map Merged.reviewer_skin_tone rows)) = Ok tone /\
    item0 (mode (map Merged.reviewer_eye_color rows)) = Ok eye /\
    item0 (mode (map Merged.reviewer_skin_type rows)) = Ok type /\
    item0 (mode (map Merged.reviewer_hair_color rows)) = Ok hair /\
    Forall2 (fun m c => exists d z,
                 to_datetime parse_datetime (Merged.full_date m) = Ok d /\
                 py_int (Merged.reviewer_id m) = Ok z /\
                 c = cleaned_row tone eye type hair m d z)
            (surviving df_merged) df_clean.
Proof.
  unfold cleaned. intros H.
  apply bind_Ok in H. destruct H as (filled & Hfill & H).
  apply bind_Ok in H. destruct H as (dated & Hdate & Hint).
  apply fill_missing_Ok in Hfill.
  destruct Hfill as (tone & eye & type & hair & Ht & He & Hy & Hh & ->).
  exists tone, eye, type, hair. simpl. repeat split; try assumption.
  apply derive_dates_Ok in Hdate. apply reviewer_id_to_int_Ok in Hint.
  apply Forall2_filter
    with (p := fun m => checkNumeric (Merged.reviewer_id m))
         (q := fun c => checkNumeric (Clean.reviewer_id c)) in Hdate.
  2:{ intros m c (d & _ & ->). reflexivity. }
  pose proof (Forall2_trans Hdate Hint) as H. clear Hdate Hint.
  unfold surviving.
  assert (E : filter (fun m => checkNumeric (Merged.reviewer_id m))
                (map (filled_row tone eye type hair) (dropna_review_text df_merged))
              = map (filled_row tone eye type hair)
                  (filter (fun m => checkNumeric (Merged.reviewer_id m))
                     (dropna_review_text df_merged))).
  { generalize (dropna_review_text df_merged) as l.
    induction l as [| m l IH]; simpl; [reflexivity |].
    destruct (checkNumeric (Merged.reviewer_id m)); simpl; congruence. }
  rewrite E in H. apply Forall2_map_l in H.
  eapply Forall2_impl; [| exact H]. simpl.
  intros m c _ (c0 & (d & Hd & ->) & (z & Hz & ->)).
  exists d, z. repeat split; assumption.
Qed.

End CleaningFacts.

(** ** The output tables *)

Lemma transform_data_Ok (parse_datetime : pystr -> option (option Timestamp))
    (df1 : list Product.t) (df2 : list Review.t) (t : Tables) :
  transform_data parse_datetime df1 df2 = Ok t ->
  exists df_clean,
    cleaned parse_datetime (merge df1 df2) = Ok df_clean /\ t = make_tables df_clean.
Proof.
  unfold transform_data. intros H. apply bind_Ok in H.
  destruct H as (df_clean & Hc & E). injection E as <-. eauto.
Qed.

Lemma nth_error_numbered {A : Type} (l : list A) (start k : nat) :
  nth_error (combine (seq start (List.length l)) l) k =
  option_map (fun x => ((start + k)%nat, x)) (nth_error l k).
Proof.
  revert start k; induction l as [| a l IH]; intros start k; simpl.
  - destruct k; reflexivity.
  - destruct k as [| k]; simpl.
    + rewrite Nat.add_0_r. reflexivity.
    + rewrite IH. rewrite Nat.add_succ_r. reflexivity.
Qed.

Lemma make_reviews_nth (df_clean : list Clean.t) (k : nat) :
  nth_error (make_reviews df_clean) k =
  option_map (reviews_row k) (nth_error df_clean k).
Proof.
  unfold make_reviews. rewrite nth_error_map, nth_error_numbered.
  destruct (nth_error df_clean k); reflexivity.
Qed.

Lemma make_reviews_length (df_clean : list Clean.t) :
  List.length (make_reviews df_clean) = List.length df_clean.
Proof.
  unfold make_reviews.
  rewrite length_map, length_combine, length_seq. apply Nat.min_id.
Qed.

Lemma make_reviews_In (df_clean : list Clean.t) (f : ReviewsRow.t) :
  In f (make_reviews df_clean) ->
  exists k c, nth_error df_clean k = Some c /\ f = reviews_row k c.
Proof.
  intros H. apply In_nth_error in H. destruct H as (k & Hk).
  rewrite make_reviews_nth in Hk.
  destruct (nth_error df_clean k) as [c |] eqn:E; [| discriminate].
  injection Hk as <-. eauto.
Qed.

Lemma make_reviews_ids (df_clean : list Clean.t) :
  map ReviewsRow.review_id (make_reviews df_clean) =
  map (fun k => (Z.of_nat k + 1)%Z) (seq 0 (List.length df_clean)).
Proof.
  apply nth_error_ext. intros k.
  rewrite !nth_error_map, make_reviews_nth.
  destruct (nth_error df_clean k) as [c |] eqn:E; simpl.
  - assert (Hk : (k < List.length df_clean)%nat)
      by (apply nth_error_Some; congruence).
    rewrite nth_error_seq. apply Nat.ltb_lt in Hk. rewrite Hk. reflexivity.
  - apply nth_error_None in E. rewrite nth_error_seq.
    apply Nat.ltb_ge in E. rewrite E. reflexivity.
Qed.

(** ** Referential closure and key uniqueness *)

(** C1. Referential closure: whenever the transform returns its tables,
    each foreign key of each fact row ([product_id], [brand_id],
    [reviewer_id], [date_id]) occurs exactly once in the key column of the
    corresponding dimension table.  A null key counts as a key value, as it
    does for [drop_duplicates]. *)
Theorem referential_closure (parse_datetime : pystr -> option (option Timestamp))
    (df1 : list Product.t) (df2 : list Review.t) (t : Tables) :
  transform_data parse_datetime df1 df2 = Ok t ->
  Forall (fun f =>
    count_occ product_key_eq_dec (map ProductRow.product_id (product_df t))
      (ReviewsRow.product_id f) = 1%nat /\
    count_occ brand_key_eq_dec (map BrandRow.brand_id (brand_df t))
      (ReviewsRow.brand_id f) = 1%nat /\
    count_occ pyval_eq_dec (map ReviewerRow.reviewer_id (reviewer_df t))
      (ReviewsRow.reviewer_id f) = 1%nat /\
    count_occ date_key_eq_dec (map DateRow.date_id (date_df t))
      (ReviewsRow.date_id f) = 1%nat)
    (reviews_df t).
Proof.
  intros H. apply transform_data_Ok in H. destruct H as (df_clean & _ & ->).
  apply Forall_forall. intros f Hf. simpl in Hf.
  apply make_reviews_In in Hf. destruct Hf as (k & c & Hk & ->).
  apply nth_error_In in Hk. simpl.
  repeat split; apply drop_duplicates_count; rewrite map_map; simpl.
  - change (Clean.product_id c)
      with ((fun x => ProductRow.product_id (product_row x)) c).
    apply in_map. exact Hk.
  - change (Clean.brand_id c) with ((fun x => BrandRow.brand_id (brand_row x)) c).
    apply in_map. exact Hk.
  - change (Clean.reviewer_id c)
      with ((fun x => ReviewerRow.reviewer_id (reviewer_row x)) c).
    apply in_map. exact Hk.
  - change (Clean.full_date c) with ((fun x => DateRow.date_id (date_row x)) c).
    apply in_map. exact Hk.
Qed.

Lemma example_transform :
  transform_data parse_iso_date example_products example_reviews = Ok example_tables.
Proof. vm_compute. reflexivity. Qed.

Lemma referential_closure_witness :
  transform_data parse_iso_date example_products example_reviews = Ok example_tables /\
  Forall (fun f =>
    count_occ product_key_eq_dec (map ProductRow.product_id (product_df example_tables))
      (ReviewsRow.product_id f) = 1%nat /\
    count_occ brand_key_eq_dec (map BrandRow.brand_id (brand_df example_tables))
      (ReviewsRow.brand_id f) = 1%nat /\
    count_occ pyval_eq_dec (map ReviewerRow.reviewer_id (reviewer_df example_tables))
      (ReviewsRow.reviewer_id f) = 1%nat /\
    count_occ date_key_eq_dec (map DateRow.date_id (date_df example_tables))
      (ReviewsRow.date_id f) = 1%nat)
    (reviews_df example_tables).
Proof.
  split; [vm_compute; reflexivity |].
  apply (referential_closure parse_iso_date example_products example_reviews).
  vm_compute; reflexivity.
Defined.

(** C2. Key uniqueness: whenever the transform returns its tables, the key
    values of each dimension table are pairwise distinct: [product_id] in the
    product table, [brand_id] in the brand table, [reviewer_id] in the
    reviewer table and [date_id] in the date table. *)
Theorem dimension_keys_unique (parse_datetime : pystr -> option (option Timestamp))
    (df1 : list Product.t) (df2 : list Review.t) (t : Tables) :
  transform_data parse_datetime df1 df2 = Ok t ->
  NoDup (map ProductRow.product_id (product_df t)) /\
  NoDup (map BrandRow.brand_id (brand_df t)) /\
  NoDup (map ReviewerRow.reviewer_id (reviewer_df t)) /\
  NoDup (map DateRow.date_id (date_df t)).
Proof.
  intros H. apply transform_data_Ok in H. destruct H as (df_clean & _ & ->).
  simpl. repeat split; apply drop_duplicates_NoDup.
Qed.

Lemma dimension_keys_unique_witness :
  transform_data parse_iso_date example_products example_reviews = Ok example_tables /\
  (NoDup (map ProductRow.product_id (product_df example_tables)) /\
   NoDup (map BrandRow.brand_id (brand_df example_tables)) /\
   NoDup (map ReviewerRow.reviewer_id (reviewer_df example_tables)) /\
   NoDup (map DateRow.date_id (date_df example_tables))).
Proof.
  split; [vm_compute; reflexivity |].
  apply (dimension_keys_unique parse_iso_date example_products example_reviews).
  vm_compute; reflexivity.
Defined.

(** ** The fact table *)

(** C8. The fact table has one row for each row of the cleaned merged table
    (as many as there are surviving merged rows), in the same order, and the
    row at 0-based position [k] carries [review_id] [k + 1], so that the
    identifiers are 1, 2, ..., N. *)
Theorem review_ids_sequential (parse_datetime : pystr -> option (option Timestamp))
    (df1 : list Product.t) (df2 : list Review.t) (t : Tables) :
  transform_data parse_datetime df1 df2 = Ok t ->
  exists df_clean,
    cleaned parse_datetime (merge df1 df2) = Ok df_clean /\
    List.length df_clean = List.length (surviving (merge df1 df2)) /\
    List.length (reviews_df t) = List.length df_clean /\
    map ReviewsRow.review_id (reviews_df t) =
      map (fun k => (Z.of_nat k + 1)%Z) (seq 0 (List.length df_clean)) /\
    forall k, nth_error (reviews_df t) k =
              option_map (reviews_row k) (nth_error df_clean k).
Proof.
  intros H. apply transform_data_Ok in H. destruct H as (df_clean & Hc & ->).
  exists df_clean. split; [exact Hc |]. simpl.
  apply cleaned_Ok in Hc. destruct Hc as (? & ? & ? & ? & _ & _ & _ & _ & HF).
  apply Forall2_length in HF.
  repeat split.
  - symmetry. exact HF.
  - apply make_reviews_length.
  - apply make_reviews_ids.
  - apply make_reviews_nth.
Qed.

Lemma review_ids_sequential_witness :
  transform_data parse_iso_date example_products example_reviews = Ok example_tables /\
  exists df_clean,
    cleaned parse_iso_date (merge example_products example_reviews) = Ok df_clean /\
    List.length df_clean =
      List.length (surviving (merge example_products example_reviews)) /\
    List.length (reviews_df example_tables) = List.length df_clean /\
    map ReviewsRow.review_id (reviews_df example_tables) =
      map (fun k => (Z.of_nat k + 1)%Z) (seq 0 (List.length df_clean)) /\
    forall k, nth_error (reviews_df example_tables) k =
              option_map (reviews_row k) (nth_error df_clean k).
Proof.
  split; [vm_compute; reflexivity |].
  apply (review_ids_sequential parse_iso_date example_products example_reviews).
  vm_compute; reflexivity.
Defined.

Example example_review_ids :
  map ReviewsRow.review_id (reviews_df example_tables) = [1; 2; 3]%Z.
Proof. reflexivity. Qed.

(** ** First occurrence wins *)



(** ** [checkNumeric] and [int] *)

Ltac bool_cases :=
  repeat match goal with
         | |- context [(?a <=? ?b)%N] => destruct (N.leb_spec a b)
         | |- context [(?a <? ?b)%N] => destruct (N.ltb_spec a b)
         | |- context [(?a =? ?b)%N] => destruct (N.eqb_spec a b)
         end;
  simpl; try reflexivity; try discriminate; try lia.

Lemma in_run_iff (c start len : N) :
  in_run c start len = true <-> (start <= c < start + len)%N.
Proof.
  unfold in_run. rewrite andb_true_iff, N.leb_le, N.ltb_lt. tauto.
Qed.

Lemma is_some_true {A : Type} (o : option A) : is_some o = true <-> o <> None.
Proof. destruct o; simpl; split; congruence. Qed.

Lemma checkNumeric_isdigit (v : pyval) : checkNumeric v = isdigit (py_str v).
Proof. unfold checkNumeric. destruct (isdigit (py_str v)); reflexivity. Qed.

Lemma isdigit_iff (s : pystr) :
  isdigit s = true <-> s <> [] /\ Forall (fun c => unicode_digit c <> None) s.
Proof.
  assert (H : forallb (fun c => is_some (unicode_digit c)) s = true <->
              Forall (fun c => unicode_digit c <> None) s).
  { rewrite forallb_forall, Forall_forall.
    split; intros H c Hc; apply is_some_true; auto. }
  destruct s as [| c s]; unfold isdigit.
  - split; [discriminate | intros [[] _]; reflexivity].
  - rewrite H. split; [intros; split; [discriminate | assumption] | tauto].
Qed.

(** Below 128 the characters with a digit value are '0' to '9'. *)
Lemma ascii_digit_table (c : N) :
  (c < 128)%N -> is_some (unicode_digit c) = is_ascii_digit c.
Proof.
  intros Hc.
  assert (H : forallb (fun n => Bool.eqb (is_some (unicode_digit (N.of_nat n)))
                                   (is_ascii_digit (N.of_nat n)))
                (seq 0 128) = true) by (vm_compute; reflexivity).
  rewrite forallb_forall in H. specialize (H (N.to_nat c)).
  rewrite N2Nat.id in H. apply eqb_prop. apply H. apply in_seq. lia.
Qed.

Lemma isdigit_ascii (s : pystr) :
  Forall (fun c => (c < 128)%N) s ->
  (isdigit s = true <-> s <> [] /\ Forall (fun c => is_ascii_digit c = true) s).
Proof.
  intros Hs. rewrite isdigit_iff. rewrite !Forall_forall in *.
  split; intros [Hne H]; (split; [exact Hne |]); intros c Hc.
  - rewrite <- ascii_digit_table by auto. apply is_some_true. auto.
  - apply is_some_true. rewrite ascii_digit_table by auto. auto.
Qed.

Lemma to_ascii_char_not_minus (c a : N) :
  unicode_digit c <> None -> to_ascii_char c = Some a -> a <> 45%N.
Proof.
  unfold to_ascii_char. intros Hd H.
  destruct (c <? 127)%N.
  - injection H as <-. intros ->. apply Hd. vm_compute. reflexivity.
  - destruct (unicode_isspace c); [injection H as <-; discriminate |].
    destruct (unicode_decimal c) as [d |]; [| discriminate].
    assert (E : a = (48 + d)%N) by congruence. lia.
Qed.

Lemma to_ascii_no_minus (s : pystr) (t : list N) :
  Forall (fun c => unicode_digit c <> None) s -> to_ascii s = Some t -> ~ In 45%N t.
Proof.
  intros Hs; revert t; induction Hs as [| c s Hc _ IH]; simpl; intros t H.
  - injection H as <-. auto.
  - destruct (to_ascii_char c) as [a |] eqn:Ea; [| discriminate].
    destruct (to_ascii s) as [t' |]; [| discriminate].
    injection H as <-. simpl. intros [E | Hin].
    + exact (to_ascii_char_not_minus c Hc Ea E).
    + exact (IH t' eq_refl Hin).
Qed.

Lemma lstrip_incl (t : list N) (x : N) : In x (lstrip t) -> In x t.
Proof.
  induction t as [| c t IH]; simpl; [auto |].
  destruct (is_ascii_space c); simpl; auto.
Qed.

Lemma scan_digits_nonneg (t : list N) (acc : Z) (ndig : nat) (prev_us : bool)
    (v : Z) (n : nat) (rest : list N) :
  (0 <= acc)%Z -> scan_digits acc ndig prev_us t = Some (v, n, rest) -> (0 <= v)%Z.
Proof.
  revert acc ndig prev_us; induction t as [| c t IH]; cbn [scan_digits];
    intros acc ndig prev_us Hacc H.
  - destruct prev_us; [discriminate |]. injection H as <- _ _. exact Hacc.
  - destruct (is_ascii_digit c).
    + apply IH in H; [exact H | lia].
    + destruct (c =? 95)%N, prev_us; try discriminate.
      * apply IH in H; assumption.
      * injection H as <- _ _. exact Hacc.
Qed.

Lemma long_from_string_nonneg (t : list N) (z : Z) :
  ~ In 45%N t -> long_from_string t = Some z -> (0 <= z)%Z.
Proof.
  intros Hminus. unfold long_from_string.
  assert (Hstrip : ~ In 45%N (lstrip t)) by (intros H; apply Hminus, lstrip_incl, H).
  destruct (lstrip t) as [| c r].
  - simpl. discriminate.
  - assert (Hc : (c =? 45)%N = false).
    { apply N.eqb_neq. intros ->. apply Hstrip. simpl. auto. }
    rewrite Hc.
    assert (Hnonneg : forall t2,
               (if match t2 with c0 :: _ => (c0 =? 95)%N | [] => false end then None
                else match scan_digits 0 0 false t2 with
                     | Some (v, S _, rest) =>
                         if forallb is_ascii_space rest then Some v else None
                     | _ => None
                     end) = Some z -> (0 <= z)%Z).
    { intros t2 H.
      destruct (match t2 with c0 :: _ => (c0 =? 95)%N | [] => false end);
        [discriminate |].
      destruct (scan_digits 0 0 false t2) as [[[v n] rest] |] eqn:E; [| discriminate].
      destruct n; [discriminate |].
      destruct (forallb is_ascii_space rest); [| discriminate].
      injection H as <-. eapply scan_digits_nonneg; [| exact E]. lia. }
    destruct (c =? 43)%N; intros H;
      [exact (Hnonneg r H) | exact (Hnonneg (c :: r) H)].
Qed.

(** An identifier that passes [checkNumeric] and converts, converts to a
    non-negative integer. *)
Lemma checkNumeric_int_nonneg (v : pyval) (z : Z) :
  checkNumeric v = true -> py_int v = Ok z -> (0 <= z)%Z.
Proof.
  rewrite checkNumeric_isdigit. destruct v as [| n | s]; simpl.
  - discriminate.
  - intros Hd H. injection H as <-.
    destruct n as [| p | p]; try lia. discriminate Hd.
  - intros Hd H. apply isdigit_iff in Hd. destruct Hd as [_ Hd].
    unfold py_int_str in H.
    destruct (to_ascii s) as [t |] eqn:Et; [| discriminate].
    destruct (long_from_string t) as [z' |] eqn:Ez; [| discriminate].
    injection H as <-.
    eapply long_from_string_nonneg; [| exact Ez].
    eapply to_ascii_no_minus; eauto.
Qed.

Lemma ascii_digit_bounds (c : N) : is_ascii_digit c = true <-> (48 <= c < 58)%N.
Proof. unfold is_ascii_digit. rewrite in_run_iff. lia. Qed.

Lemma to_ascii_digits (s : pystr) :
  Forall (fun c => is_ascii_digit c = true) s -> to_ascii s = Some s.
Proof.
  induction 1 as [| c s Hc _ IH]; simpl; [reflexivity |].
  rewrite IH. apply ascii_digit_bounds in Hc. unfold to_ascii_char.
  destruct (N.ltb_spec c 127); [reflexivity | lia].
Qed.

Lemma scan_digits_digits (s : pystr) (acc : Z) (ndig : nat) :
  Forall (fun c => is_ascii_digit c = true) s ->
  exists v, decimal_value acc s = Some v /\
            scan_digits acc ndig false s = Some (v, (ndig + List.length s)%nat, []).
Proof.
  intros Hs; revert acc ndig; induction Hs as [| c s Hc _ IH];
    cbn [scan_digits decimal_value List.length]; intros acc ndig.
  - exists acc. rewrite Nat.add_0_r. auto.
  - rewrite Hc. destruct (IH (10 * acc + Z.of_N (c - 48))%Z (S ndig)) as (v & Hv & Hscan).
    exists v. rewrite Hscan, Nat.add_succ_r. auto.
Qed.

(** [int] reads a non-empty string of ASCII digits as the decimal numeral it
    is. *)
Lemma py_int_ascii_digits (s : pystr) :
  s <> [] -> Forall (fun c => is_ascii_digit c = true) s ->
  exists z, py_int (PyStr s) = Ok z /\ decimal_value 0 s = Some z /\ (0 <= z)%Z.
Proof.
  intros Hne Hs. simpl. unfold py_int_str. rewrite (to_ascii_digits Hs).
  destruct (scan_digits_digits 0 0 Hs) as (v & Hv & Hscan).
  assert (Hlong : long_from_string s = Some v).
  { unfold long_from_string. destruct s as [| c s']; [contradiction |].
    inversion Hs as [| ? ? Hc _]; subst. apply ascii_digit_bounds in Hc.
    assert (Hsp : is_ascii_space c = false).
    { unfold is_ascii_space, in_run. bool_cases. }
    simpl lstrip. rewrite Hsp.
    destruct (N.eqb_spec c 43); [lia |]. destruct (N.eqb_spec c 45); [lia |].
    destruct (N.eqb_spec c 95); [lia |].
    rewrite Hscan. reflexivity. }
  rewrite Hlong. exists v. repeat split; auto.
  eapply scan_digits_nonneg; [| exact Hscan]. lia.
Qed.

(** ** Every fact row comes from a surviving merged row *)

Lemma make_reviews_Forall2 (df_clean : list Clean.t) :
  Forall2 (fun c f => exists k, f = reviews_row k c) df_clean (make_reviews df_clean).
Proof.
  unfold make_reviews. generalize 0%nat.
  induction df_clean as [| c l IH]; intros start; simpl; constructor; eauto.
Qed.

Lemma surviving_In (df_merged : list Merged.t) (m : Merged.t) :
  In m (surviving df_merged) <->
  In m df_merged /\ Merged.review_text m <> None /\
  checkNumeric (Merged.reviewer_id m) = true.
Proof.
  unfold surviving, dropna_review_text. rewrite !filter_In, is_some_true. tauto.
Qed.

(** Row for row, the fact table is the surviving part of the merged table:
    the [k]-th fact row is cut from the cleaned form of the [k]-th surviving
    merged row. *)
Lemma facts_of_surviving (parse_datetime : pystr -> option (option Timestamp))
    (df1 : list Product.t) (df2 : list Review.t) (t : Tables) :
  transform_data parse_datetime df1 df2 = Ok t ->
  exists tone eye type hair,
    Forall2 (fun m f => exists d z k,
                 to_datetime parse_datetime (Merged.full_date m) = Ok d /\
                 py_int (Merged.reviewer_id m) = Ok z /\
                 f = reviews_row k (cleaned_row tone eye type hair m d z))
            (surviving (merge df1 df2)) (reviews_df t).
Proof.
  intros H. apply transform_data_Ok in H. destruct H as (df_clean & Hc & ->).
  apply cleaned_Ok in Hc.
  destruct Hc as (tone & eye & type & hair & _ & _ & _ & _ & HF).
  exists tone, eye, type, hair. simpl.
  pose proof (Forall2_trans HF (make_reviews_Forall2 df_clean)) as H.
  eapply Forall2_impl; [| exact H]. simpl.
  intros m f _ (c & (d & z & Hd & Hz & ->) & (k & ->)). eauto 8.
Qed.

(** ** Rows without review text *)

(** C3, as stated, fails: a review whose text is the empty string is not
    null for [dropna]; it stays in the fact table, with an empty
    [review_text]. *)
Lemma empty_review_text_kept :
  transform_data parse_iso_date example_products empty_text_reviews
    = Ok empty_text_tables /\
  map Merged.review_text (merge example_products empty_text_reviews) = [Some []] /\
  map ReviewsRow.review_text (reviews_df empty_text_tables) = [Some []] /\
  ~ Forall (fun f => exists s, ReviewsRow.review_text f = Some s /\ s <> [])
      (reviews_df empty_text_tables).
Proof.
  split; [vm_compute; reflexivity |].
  split; [reflexivity |]. split; [reflexivity |].
  intros H. inversion H as [| f l (s & Hs & Hne) _]; subst.
  simpl in Hs. injection Hs as <-. apply Hne. reflexivity.
Qed.

(** C3, amended. The fact rows are, row for row, the surviving merged rows
    with their [review_text] unchanged; no surviving merged row has a null
    [review_text], so a merged row with a null [review_text] has no fact row
    and the [review_text] of every fact row is non-null. *)
Theorem null_review_text_excluded (parse_datetime : pystr -> option (option Timestamp))
    (df1 : list Product.t) (df2 : list Review.t) (t : Tables) :
  transform_data parse_datetime df1 df2 = Ok t ->
  Forall2 (fun m f => ReviewsRow.review_text f = Merged.review_text m)
    (surviving (merge df1 df2)) (reviews_df t) /\
  (forall m, In m (merge df1 df2) -> Merged.review_text m = None ->
             ~ In m (surviving (merge df1 df2))) /\
  Forall (fun f => ReviewsRow.review_text f <> None) (reviews_df t).
Proof.
  intros H. apply facts_of_surviving in H.
  destruct H as (tone & eye & type & hair & HF).
  assert (H2 : Forall2 (fun m f => ReviewsRow.review_text f = Merged.review_text m)
                 (surviving (merge df1 df2)) (reviews_df t)).
  { eapply Forall2_impl; [| exact HF]. simpl.
    intros m f _ (d & z & k & _ & _ & ->). reflexivity. }
  split; [exact H2 |]. split.
  - intros m _ Hnull Hin. apply surviving_In in Hin. tauto.
  - apply Forall_forall. intros f Hf.
    destruct (Forall2_In_r f H2 Hf) as (m & Hm & ->).
    apply surviving_In in Hm. tauto.
Qed.

Lemma null_review_text_excluded_witness :
  transform_data parse_iso_date example_products example_reviews = Ok example_tables /\
  (Forall2 (fun m f => ReviewsRow.review_text f = Merged.review_text m)
     (surviving (merge example_products example_reviews)) (reviews_df example_tables) /\
   (forall m, In m (merge example_products example_reviews) ->
              Merged.review_text m = None ->
              ~ In m (surviving (merge example_products example_reviews))) /\
   Forall (fun f => ReviewsRow.review_text f <> None) (reviews_df example_tables)).
Proof.
  split; [vm_compute; reflexivity |].
  apply (null_review_text_excluded parse_iso_date example_products example_reviews).
  vm_compute; reflexivity.
Defined.

(** ** The numeric filter on reviewer identifiers *)

(** C4, as stated, fails: [str.isdigit] accepts every character with a
    Unicode digit value.  The identifier made of the Arabic-Indic digit three
    has no ASCII digit, passes [checkNumeric], and its review is a fact row
    with [reviewer_id] 3. *)
Lemma arabic_digit_accepted :
  ~ (checkNumeric (PyStr arabic_three) = true <->
     Forall (fun c => is_ascii_digit c = true) arabic_three) /\
  checkNumeric (PyStr arabic_three) = true /\
  transform_data parse_iso_date example_products arabic_digit_reviews
    = Ok arabic_digit_tables /\
  map ReviewsRow.reviewer_id (reviews_df arabic_digit_tables) = [PyInt 3] /\
  map ReviewerRow.reviewer_id (reviewer_df arabic_digit_tables) = [PyInt 3].
Proof.
  split; [| repeat split; vm_compute; reflexivity].
  intros [H _]. specialize (H eq_refl).
  inversion H as [| c l Hc _]; subst. vm_compute in Hc. discriminate.
Qed.

(** A digit that is not a decimal digit passes [checkNumeric] as well, and
    [int] then raises: the transform ends in a [ValueError]. *)
Example superscript_digit_aborts :
  checkNumeric (PyStr superscript_two) = true /\
  transform_data parse_iso_date example_products superscript_reviews
    = Raise ValueError.
Proof. split; vm_compute; reflexivity. Qed.

(** C4, amended. An identifier is accepted exactly when its string form is
    not empty and all its characters have a Unicode digit value; for a string
    form of ASCII characters that is: not empty and all characters among '0'
    to '9' (so a sign, a decimal point, white space and the empty string are
    rejected), and such an identifier converts to the non-negative integer it
    denotes.  When the transform returns, the fact rows are row for row the
    surviving merged rows, all of which are accepted, a merged row with a
    rejected identifier is not among them, and every [reviewer_id] of the
    fact table and of the reviewer table is the non-negative [int] that an
    accepted identifier of a surviving row converts to. *)
Theorem reviewer_id_numeric_filter :
  (forall v, checkNumeric v = true <->
             py_str v <> [] /\ Forall (fun c => unicode_digit c <> None) (py_str v)) /\
  (forall v, Forall (fun c => (c < 128)%N) (py_str v) ->
             (checkNumeric v = true <->
              py_str v <> [] /\ Forall (fun c => is_ascii_digit c = true) (py_str v))) /\
  (forall s, s <> [] -> Forall (fun c => is_ascii_digit c = true) s ->
             checkNumeric (PyStr s) = true /\
             exists z, py_int (PyStr s) = Ok z /\ decimal_value 0 s = Some z /\ (0 <= z)%Z) /\
  (forall parse_datetime df1 df2 t,
      transform_data parse_datetime df1 df2 = Ok t ->
      Forall2 (fun m f => checkNumeric (Merged.reviewer_id m) = true /\
                          exists z, py_int (Merged.reviewer_id m) = Ok z /\ (0 <= z)%Z /\
                                    ReviewsRow.reviewer_id f = PyInt z)
        (surviving (merge df1 df2)) (reviews_df t) /\
      (forall m, In m (merge df1 df2) -> checkNumeric (Merged.reviewer_id m) = false ->
                 ~ In m (surviving (merge df1 df2))) /\
      Forall (fun r => exists m z, In m (surviving (merge df1 df2)) /\
                                   checkNumeric (Merged.reviewer_id m) = true /\
                                   py_int (Merged.reviewer_id m) = Ok z /\ (0 <= z)%Z /\
                                   ReviewerRow.reviewer_id r = PyInt z)
        (reviewer_df t)).
Proof.
  split; [| split; [| split]].
  - intros v. rewrite checkNumeric_isdigit. apply isdigit_iff.
  - intros v Hv. rewrite checkNumeric_isdigit. apply isdigit_ascii. exact Hv.
  - intros s Hne Hs. split; [| apply py_int_ascii_digits; assumption].
    rewrite checkNumeric_isdigit. simpl. apply isdigit_ascii; [| tauto].
    eapply Forall_impl; [| exact Hs]. intros c Hc.
    apply ascii_digit_bounds in Hc. lia.
  - intros parse_datetime df1 df2 t H.
    pose proof (facts_of_surviving _ _ _ H) as (tone & eye & type & hair & HF).
    assert (HF' : Forall2
              (fun m f => checkNumeric (Merged.reviewer_id m) = true /\
                          exists z, py_int (Merged.reviewer_id m) = Ok z /\ (0 <= z)%Z /\
                                    ReviewsRow.reviewer_id f = PyInt z)
              (surviving (merge df1 df2)) (reviews_df t)).
    { eapply Forall2_impl; [| exact HF]. simpl.
      intros m f Hm (d & z & k & _ & Hz & ->).
      apply surviving_In in Hm. destruct Hm as (_ & _ & Hnum).
      split; [exact Hnum |]. exists z. repeat split; auto.
      eapply checkNumeric_int_nonneg; eauto. }
    split; [exact HF' |]. split.
    + intros m _ Hrej Hin. apply surviving_In in Hin. destruct Hin as (_ & _ & Hacc).
      congruence.
    + apply transform_data_Ok in H. destruct H as (df_clean & Hc & ->).
      apply Forall_forall. intros r Hr. simpl in Hr.
      apply drop_duplicates_incl in Hr. apply in_map_iff in Hr.
      destruct Hr as (c & <- & Hc').
      apply cleaned_Ok in Hc.
      destruct Hc as (tone' & eye' & type' & hair' & _ & _ & _ & _ & HC).
      destruct (Forall2_In_r c HC Hc') as (m & Hm & d & z & _ & Hz & ->).
      exists m, z. pose proof Hm as Hm'. apply surviving_In in Hm'.
      destruct Hm' as (_ & _ & Hnum).
      repeat split; auto. eapply checkNumeric_int_nonneg; eauto.
Qed.

Lemma reviewer_id_numeric_filter_witness :
  transform_data parse_iso_date example_products example_reviews = Ok example_tables /\
  map (fun m => checkNumeric (Merged.reviewer_id m)) (merge example_products example_reviews)
    = [true; false; true; true; true] /\
  Forall2 (fun m f => checkNumeric (Merged.reviewer_id m) = true /\
                      exists z, py_int (Merged.reviewer_id m) = Ok z /\ (0 <= z)%Z /\
                                ReviewsRow.reviewer_id f = PyInt z)
    (surviving (merge example_products example_reviews)) (reviews_df example_tables) /\
  (checkNumeric (PyStr (lit "100")) = true /\
   exists z, py_int (PyStr (lit "100")) = Ok z /\
             decimal_value 0 (lit "100") = Some z /\ (0 <= z)%Z).
Proof.
  destruct reviewer_id_numeric_filter as (_ & _ & Hascii & Htables).
  split; [vm_compute; reflexivity |].
  split; [vm_compute; reflexivity |].
  split.
  - apply (Htables parse_iso_date example_products example_reviews example_tables).
    vm_compute; reflexivity.
  - apply (Hascii (lit "100")).
    + discriminate.
    + repeat constructor.
Defined.

(** ** Filling the categorical columns *)

(** C5. When the transform returns, each of the four categorical reviewer
    columns has a fill value that is a most frequent non-null value of that
    column among the merged rows left after the rows without [review_text]
    are dropped (rows that the numeric filter removes later still count), and
    in the cleaned table every cell of the column is the cell of the merged
    row it comes from, with a null replaced by the fill value. *)
Theorem nulls_filled_with_mode (parse_datetime : pystr -> option (option Timestamp))
    (df1 : list Product.t) (df2 : list Review.t) (t : Tables) :
  transform_data parse_datetime df1 df2 = Ok t ->
  exists tone eye type hair df_clean,
    let rows := dropna_review_text (merge df1 df2) in
    most_frequent tone (map Merged.reviewer_skin_tone rows) /\
    most_frequent eye (map Merged.reviewer_eye_color rows) /\
    most_frequent type (map Merged.reviewer_skin_type rows) /\
    most_frequent hair (map Merged.reviewer_hair_color rows) /\
    cleaned parse_datetime (merge df1 df2) = Ok df_clean /\
    t = make_tables df_clean /\
    Forall2 (fun m c =>
               Clean.reviewer_skin_tone c = fillna tone (Merged.reviewer_skin_tone m) /\
               Clean.reviewer_eye_color c = fillna eye (Merged.reviewer_eye_color m) /\
               Clean.reviewer_skin_type c = fillna type (Merged.reviewer_skin_type m) /\
               Clean.reviewer_hair_color c = fillna hair (Merged.reviewer_hair_color m))
      (surviving (merge df1 df2)) df_clean.
Proof.
  intros H. apply transform_data_Ok in H. destruct H as (df_clean & Hc & ->).
  pose proof (cleaned_Ok _ _ Hc) as (tone & eye & type & hair & Ht & He & Hy & Hh & HF).
  exists tone, eye, type, hair, df_clean. simpl.
  repeat split; try (apply item0_mode; assumption); try assumption.
  eapply Forall2_impl; [| exact HF]. simpl.
  intros m c _ (d & z & _ & _ & ->). repeat split; reflexivity.
Qed.

(** In the example the skin tones of the rows with text are null, "fair",
    "fair" and "dark"; one "fair" belongs to the row that the numeric filter
    removes.  The null is filled with "fair". *)
Lemma nulls_filled_with_mode_witness :
  transform_data parse_iso_date example_products example_reviews = Ok example_tables /\
  map Merged.reviewer_skin_tone
      (dropna_review_text (merge example_products example_reviews))
    = [None; Some (lit "fair"); Some (lit "fair"); Some (lit "dark")] /\
  map Clean.reviewer_skin_tone example_clean
    = [Some (lit "fair"); Some (lit "fair"); Some (lit "dark")] /\
  exists tone eye type hair df_clean,
    let rows := dropna_review_text (merge example_products example_reviews) in
    most_frequent tone (map Merged.reviewer_skin_tone rows) /\
    most_frequent eye (map Merged.reviewer_eye_color rows) /\
    most_frequent type (map Merged.reviewer_skin_type rows) /\
    most_frequent hair (map Merged.reviewer_hair_color rows) /\
    cleaned parse_iso_date (merge example_products example_reviews) = Ok df_clean /\
    example_tables = make_tables df_clean /\
    Forall2 (fun m c =>
               Clean.reviewer_skin_tone c = fillna tone (Merged.reviewer_skin_tone m) /\
               Clean.reviewer_eye_color c = fillna eye (Merged.reviewer_eye_color m) /\
               Clean.reviewer_skin_type c = fillna type (Merged.reviewer_skin_type m) /\
               Clean.reviewer_hair_color c = fillna hair (Merged.reviewer_hair_color m))
      (surviving (merge example_products example_reviews)) df_clean.
Proof.
  split; [vm_compute; reflexivity |].
  split; [vm_compute; reflexivity |].
  split; [vm_compute; reflexivity |].
  apply (nulls_filled_with_mode parse_iso_date example_products example_reviews).
  vm_compute; reflexivity.
Defined.

(** ** Errors *)

(** C6. If, among the merged rows that have a [review_text], one of the four
    categorical reviewer columns has no non-null value, the transform raises
    the [KeyError] of the empty mode and returns no table. *)
Theorem undefined_mode_raises (parse_datetime : pystr -> option (option Timestamp))
    (df1 : list Product.t) (df2 : list Review.t) :
  notna (map Merged.reviewer_skin_tone (dropna_review_text (merge df1 df2))) = [] \/
  notna (map Merged.reviewer_eye_color (dropna_review_text (merge df1 df2))) = [] \/
  notna (map Merged.reviewer_skin_type (dropna_review_text (merge df1 df2))) = [] \/
  notna (map Merged.reviewer_hair_color (dropna_review_text (merge df1 df2))) = [] ->
  transform_data parse_datetime df1 df2 = Raise KeyError.
Proof.
  intros H. unfold transform_data, cleaned.
  destruct (fill_missing (merge df1 df2)) as [filled | e] eqn:E; simpl.
  - exfalso. apply fill_missing_Ok in E.
    destruct E as (tone & eye & type & hair & Ht & He & Hy & Hh & _). simpl in *.
    destruct H as [H | [H | [H | H]]]; apply mode_no_values in H;
      rewrite H in *; discriminate.
  - apply fill_missing_Raise in E. rewrite E. reflexivity.
Qed.

Lemma undefined_mode_raises_witness :
  notna (map Merged.reviewer_skin_tone
           (dropna_review_text (merge example_products no_tone_reviews))) = [] /\
  transform_data parse_iso_date example_products no_tone_reviews = Raise KeyError.
Proof.
  split; [vm_compute; reflexivity |].
  apply (undefined_mode_raises parse_iso_date example_products no_tone_reviews).
  left. vm_compute; reflexivity.
Defined.





(** ** The brand table and its target schema *)

(** C10. The brand table is deduplicated by [brand_id] alone: for the
    example tables it holds two rows with the same [brand_name] and different
    [brand_id]s, which the [UNIQUE] constraint on [brand_name] in
    [tbl_brand] does not admit. *)
Theorem brand_names_not_unique :
  exists df1 df2 t b1 b2,
    transform_data parse_iso_date df1 df2 = Ok t /\
    In b1 (brand_df t) /\ In b2 (brand_df t) /\
    BrandRow.brand_name b1 = BrandRow.brand_name b2 /\
    BrandRow.brand_name b1 <> None /\
    BrandRow.brand_id b1 <> BrandRow.brand_id b2 /\
    tbl_brand_accepts (brand_df t) = false.
Proof.
  exists example_products, example_reviews, example_tables,
    (BrandRow.mk (Some 7%Z) (Some (lit "Acme"))),
    (BrandRow.mk (Some 8%Z) (Some (lit "Acme"))).
  split; [vm_compute; reflexivity |].
  split; [left; reflexivity |].
  split; [right; left; reflexivity |].
  split; [reflexivity |].
  split; [discriminate |].
  split; [discriminate |].
  vm_compute; reflexivity.
Qed.

(** * Further properties of the transform *)

(** ** Where the output rows come from *)

Lemma merge_In (df1 : list Product.t) (df2 : list Review.t) (m : Merged.t) :
  In m (merge df1 df2) <->
  exists p r, In p df1 /\ In r df2 /\
              Product.product_id p = Review.product_id r /\ m = merged_row p r.
Proof.
  unfold merge. rewrite in_flat_map. split.
  - intros (p & Hp & Hm). apply in_map_iff in Hm. destruct Hm as (r & <- & Hr).
    apply filter_In in Hr. destruct Hr as [Hr Hs]. unfold same_product in Hs.
    destruct (option_eq_dec pystr_eq_dec (Product.product_id p) (Review.product_id r));
      [| discriminate].
    exists p, r. auto.
  - intros (p & r & Hp & Hr & E & ->). exists p. split; [exact Hp |].
    apply in_map. apply filter_In. split; [exact Hr |]. unfold same_product.
    destruct (option_eq_dec pystr_eq_dec (Product.product_id p) (Review.product_id r));
      [reflexivity | contradiction].
Qed.

(** The cleaned table, read off the merged table: every cleaned row is the
    cleaned form of a surviving merged row. *)
Lemma cleaned_In (parse_datetime : pystr -> option (option Timestamp))
    (df_merged : list Merged.t) (df_clean : list Clean.t) :
  cleaned parse_datetime df_merged = Ok df_clean ->
  exists tone eye type hair,
    forall c, In c df_clean ->
      exists m d z, In m (surviving df_merged) /\
                    to_datetime parse_datetime (Merged.full_date m) = Ok d /\
                    py_int (Merged.reviewer_id m) = Ok z /\
                    c = cleaned_row tone eye type hair m d z.
Proof.
  intros H. apply cleaned_Ok in H.
  destruct H as (tone & eye & type & hair & _ & _ & _ & _ & HF).
  exists tone, eye, type, hair. intros c Hc.
  destruct (Forall2_In_r c HF Hc) as (m & Hm & d & z & Hd & Hz & ->).
  exists m, d, z. auto.
Qed.

Lemma make_reviews_In_row (df_clean : list Clean.t) (c : Clean.t) :
  In c df_clean -> exists k, In (reviews_row k c) (make_reviews df_clean).
Proof.
  intros H. apply In_nth_error in H. destruct H as (k & Hk). exists k.
  apply nth_error_In with (n := k). rewrite make_reviews_nth, Hk. reflexivity.
Qed.

Lemma drop_duplicates_length {A K : Type} (K_eq_dec : forall x y : K, {x = y} + {x <> y})
    (key : A -> K) (rows : list A) :
  (List.length (drop_duplicates K_eq_dec key rows) <= List.length rows)%nat.
Proof.
  unfold drop_duplicates. generalize (@nil K) as seen.
  induction rows as [| r rows IH]; intros seen; simpl; [lia |].
  destruct (in_dec K_eq_dec (key r) seen); simpl.
  - specialize (IH seen). lia.
  - specialize (IH (key r :: seen)). lia.
Qed.

(** X1. Title default: when the transform returns, the fact rows are row
    for row the surviving merged rows; a fact row whose merged row has no
    [review_title] carries the placeholder "Review Provided", any other
    fact row carries the title of its merged row, and no fact row has a null
    title. *)
Theorem review_title_default (parse_datetime : pystr -> option (option Timestamp))
    (df1 : list Product.t) (df2 : list Review.t) (t : Tables) :
  transform_data parse_datetime df1 df2 = Ok t ->
  Forall2 (fun m f =>
             (Merged.review_title m = None ->
              ReviewsRow.review_title f = Some (lit "Review Provided")) /\
             (forall s, Merged.review_title m = Some s ->
                        ReviewsRow.review_title f = Some s))
    (surviving (merge df1 df2)) (reviews_df t) /\
  Forall (fun f => ReviewsRow.review_title f <> None) (reviews_df t).
Proof.
  intros H. apply facts_of_surviving in H.
  destruct H as (tone & eye & type & hair & HF).
  assert (HT : Forall2 (fun m f => ReviewsRow.review_title f =
                          fillna review_title_placeholder (Merged.review_title m))
                 (surviving (merge df1 df2)) (reviews_df t)).
  { eapply Forall2_impl; [| exact HF]. simpl.
    intros m f _ (d & z & k & _ & _ & ->). reflexivity. }
  split.
  - eapply Forall2_impl; [| exact HT]. simpl. intros m f _ ->.
    split; [intros -> | intros s ->]; reflexivity.
  - apply Forall_forall. intros f Hf.
    destruct (Forall2_In_r f HT Hf) as (m & _ & ->).
    destruct (Merged.review_title m); discriminate.
Qed.

Lemma review_title_default_witness :
  transform_data parse_iso_date example_products example_reviews = Ok example_tables /\
  map Merged.review_title (surviving (merge example_products example_reviews))
    = [None; None; None] /\
  map ReviewsRow.review_title (reviews_df example_tables)
    = [Some (lit "Review Provided"); Some (lit "Review Provided");
       Some (lit "Review Provided")] /\
  Forall (fun f => ReviewsRow.review_title f <> None) (reviews_df example_tables).
Proof.
  split; [vm_compute; reflexivity |].
  split; [vm_compute; reflexivity |].
  split; [vm_compute; reflexivity |].
  apply (review_title_default parse_iso_date example_products example_reviews).
  vm_compute; reflexivity.
Defined.

(** X2. Join and provenance: when the transform returns, every fact row is
    made from one product row of [df1] and one review row of [df2] with the
    same [product_id]; the review has a text and an accepted author; the
    product gives [product_id] and [brand_id], the review gives
    [review_text] and [review_rating] unchanged, [date_id] is its parsed
    [submission_time] and [reviewer_id] is its converted [author_id].  So a
    product without review, or a review without product, reaches no fact
    row. *)
Theorem fact_rows_provenance (parse_datetime : pystr -> option (option Timestamp))
    (df1 : list Product.t) (df2 : list Review.t) (t : Tables) :
  transform_data parse_datetime df1 df2 = Ok t ->
  Forall (fun f => exists p r z,
            In p df1 /\ In r df2 /\
            Product.product_id p = Review.product_id r /\
            Review.review_text r <> None /\
            checkNumeric (Review.author_id r) = true /\
            ReviewsRow.product_id f = Product.product_id p /\
            ReviewsRow.brand_id f = Product.brand_id p /\
            ReviewsRow.review_text f = Review.review_text r /\
            ReviewsRow.review_rating f = Review.rating r /\
            to_datetime parse_datetime (Review.submission_time r)
              = Ok (ReviewsRow.date_id f) /\
            py_int (Review.author_id r) = Ok z /\
            ReviewsRow.reviewer_id f = PyInt z)
    (reviews_df t).
Proof.
  intros H. apply facts_of_surviving in H.
  destruct H as (tone & eye & type & hair & HF).
  apply Forall_forall. intros f Hf.
  destruct (Forall2_In_r f HF Hf) as (m & Hm & d & z & k & Hd & Hz & ->).
  apply surviving_In in Hm. destruct Hm as (Hm & Htext & Hnum).
  apply merge_In in Hm. destruct Hm as (p & r & Hp & Hr & E & ->).
  exists p, r, z. simpl in *. repeat split; auto.
Qed.

Lemma fact_rows_provenance_witness :
  transform_data parse_iso_date example_products example_reviews = Ok example_tables /\
  Forall (fun f => exists p r z,
            In p example_products /\ In r example_reviews /\
            Product.product_id p = Review.product_id r /\
            Review.review_text r <> None /\
            checkNumeric (Review.author_id r) = true /\
            ReviewsRow.product_id f = Product.product_id p /\
            ReviewsRow.brand_id f = Product.brand_id p /\
            ReviewsRow.review_text f = Review.review_text r /\
            ReviewsRow.review_rating f = Review.rating r /\
            to_datetime parse_iso_date (Review.submission_time r)
              = Ok (ReviewsRow.date_id f) /\
            py_int (Review.author_id r) = Ok z /\
            ReviewsRow.reviewer_id f = PyInt z)
    (reviews_df example_tables).
Proof.
  split; [vm_compute; reflexivity |].
  apply (fact_rows_provenance parse_iso_date example_products example_reviews).
  vm_compute; reflexivity.
Defined.

(** X3. No orphan dimension rows: when the transform returns, the key of
    every row of every dimension table is the foreign key of some fact row,
    and no dimension table has more rows than the fact table. *)
Theorem dimension_rows_referenced (parse_datetime : pystr -> option (option Timestamp))
    (df1 : list Product.t) (df2 : list Review.t) (t : Tables) :
  transform_data parse_datetime df1 df2 = Ok t ->
  (Forall (fun d => exists f, In f (reviews_df t) /\
                              ReviewsRow.product_id f = ProductRow.product_id d)
     (product_df t) /\
   Forall (fun d => exists f, In f (reviews_df t) /\
                              ReviewsRow.brand_id f = BrandRow.brand_id d)
     (brand_df t) /\
   Forall (fun d => exists f, In f (reviews_df t) /\
                              ReviewsRow.reviewer_id f = ReviewerRow.reviewer_id d)
     (reviewer_df t) /\
   Forall (fun d => exists f, In f (reviews_df t) /\
                              ReviewsRow.date_id f = DateRow.date_id d)
     (date_df t)) /\
  (List.length (product_df t) <= List.length (reviews_df t) /\
   List.length (brand_df t) <= List.length (reviews_df t) /\
   List.length (reviewer_df t) <= List.length (reviews_df t) /\
   List.length (date_df t) <= List.length (reviews_df t))%nat.
Proof.
  intros H. apply transform_data_Ok in H. destruct H as (df_clean & _ & ->).
  simpl. split.
  - repeat split; apply Forall_forall; intros d Hd;
      apply drop_duplicates_incl in Hd; apply in_map_iff in Hd;
      destruct Hd as (c & <- & Hc);
      destruct (make_reviews_In_row _ _ Hc) as (k & Hk);
      exists (reviews_row k c); split; auto.
  - rewrite make_reviews_length.
    repeat split;
      (eapply Nat.le_trans; [apply drop_duplicates_length | rewrite length_map; lia]).
Qed.

Lemma dimension_rows_referenced_witness :
  transform_data parse_iso_date example_products example_reviews = Ok example_tables /\
  List.length (reviewer_df example_tables) = 2%nat /\
  List.length (reviews_df example_tables) = 3%nat /\
  Forall (fun d => exists f, In f (reviews_df example_tables) /\
                             ReviewsRow.reviewer_id f = ReviewerRow.reviewer_id d)
    (reviewer_df example_tables).
Proof.
  split; [vm_compute; reflexivity |].
  split; [reflexivity |]. split; [reflexivity |].
  apply (dimension_rows_referenced parse_iso_date example_products example_reviews).
  vm_compute; reflexivity.
Defined.

(** X4. Date parts: when the transform returns, [year], [month] and [day]
    of every row of the date table are the parts of its [date_id], and they
    are null exactly when [date_id] is NaT. *)
Theorem date_parts_consistent (parse_datetime : pystr -> option (option Timestamp))
    (df1 : list Product.t) (df2 : list Review.t) (t : Tables) :
  transform_data parse_datetime df1 df2 = Ok t ->
  Forall (fun d => DateRow.year d = option_map ts_year (DateRow.date_id d) /\
                   DateRow.month d = option_map ts_month (DateRow.date_id d) /\
                   DateRow.day d = option_map ts_day (DateRow.date_id d))
    (date_df t).
Proof.
  intros H. apply transform_data_Ok in H. destruct H as (df_clean & Hc & ->).
  apply cleaned_In in Hc. destruct Hc as (tone & eye & type & hair & Hc).
  apply Forall_forall. intros d Hd. simpl in Hd.
  apply drop_duplicates_incl in Hd. apply in_map_iff in Hd.
  destruct Hd as (c & <- & Hin).
  destruct (Hc c Hin) as (m & dt & z & _ & _ & _ & ->).
  repeat split; reflexivity.
Qed.

Lemma date_parts_consistent_witness :
  transform_data parse_iso_date example_products example_reviews = Ok example_tables /\
  map DateRow.day (date_df example_tables) = [Some 1%Z; Some 2%Z; Some 3%Z] /\
  Forall (fun d => DateRow.year d = option_map ts_year (DateRow.date_id d) /\
                   DateRow.month d = option_map ts_month (DateRow.date_id d) /\
                   DateRow.day d = option_map ts_day (DateRow.date_id d))
    (date_df example_tables).
Proof.
  split; [vm_compute; reflexivity |].
  split; [reflexivity |].
  apply (date_parts_consistent parse_iso_date example_products example_reviews).
  vm_compute; reflexivity.
Defined.

(** X5. No null reviewer attribute: when the transform returns, every row
    of the reviewer table has a non-null skin tone, skin type, eye color and
    hair color, and its [reviewer_id] is an [int]. *)
Theorem reviewer_attributes_filled (parse_datetime : pystr -> option (option Timestamp))
    (df1 : list Product.t) (df2 : list Review.t) (t : Tables) :
  transform_data parse_datetime df1 df2 = Ok t ->
  Forall (fun r => ReviewerRow.reviewer_skin_tone r <> None /\
                   ReviewerRow.reviewer_skin_type r <> None /\
                   ReviewerRow.reviewer_eye_color r <> None /\
                   ReviewerRow.reviewer_hair_color r <> None /\
                   exists z, ReviewerRow.reviewer_id r = PyInt z)
    (reviewer_df t).
Proof.
  intros H. apply transform_data_Ok in H. destruct H as (df_clean & Hc & ->).
  apply cleaned_In in Hc. destruct Hc as (tone & eye & type & hair & Hc).
  apply Forall_forall. intros d Hd. simpl in Hd.
  apply drop_duplicates_incl in Hd. apply in_map_iff in Hd.
  destruct Hd as (c & <- & Hin).
  destruct (Hc c Hin) as (m & dt & z & _ & _ & _ & ->). simpl.
  repeat split;
    try (match goal with |- fillna _ ?x <> None => destruct x; discriminate end).
  exists z. reflexivity.
Qed.

Lemma reviewer_attributes_filled_witness :
  transform_data parse_iso_date example_products example_reviews = Ok example_tables /\
  Forall (fun r => ReviewerRow.reviewer_skin_tone r <> None /\
                   ReviewerRow.reviewer_skin_type r <> None /\
                   ReviewerRow.reviewer_eye_color r <> None /\
                   ReviewerRow.reviewer_hair_color r <> None /\
                   exists z, ReviewerRow.reviewer_id r = PyInt z)
    (reviewer_df example_tables).
Proof.
  split; [vm_compute; reflexivity |].
  apply (reviewer_attributes_filled parse_iso_date example_products example_reviews).
  vm_compute; reflexivity.
Defined.

(** ** The inner join *)

Lemma merge_cons (p : Product.t) (df1 : list Product.t) (df2 : list Review.t) :
  merge (p :: df1) df2
  = map (merged_row p) (filter (same_product p) df2) ++ merge df1 df2.
Proof. reflexivity. Qed.

Lemma list_sum_cons (a : nat) (l : list nat) :
  list_sum (a :: l) = (a + list_sum l)%nat.
Proof. reflexivity. Qed.

Lemma count_first_key (p : Product.t) (keys : list (option pystr)) (df2 : list Review.t) :
  list_sum (map (fun r => count_occ product_key_eq_dec
                            (Product.product_id p :: keys) (Review.product_id r)) df2)
  = (List.length (filter (same_product p) df2)
     + list_sum (map (fun r => count_occ product_key_eq_dec keys (Review.product_id r))
                     df2))%nat.
Proof.
  induction df2 as [| r df2 IH]; [reflexivity |].
  cbn [map filter]. rewrite !list_sum_cons, IH.
  cbn [count_occ]. unfold product_key_eq_dec at 1.
  assert (Hs : same_product p r
               = if option_eq_dec pystr_eq_dec (Product.product_id p)
                      (Review.product_id r) then true else false) by reflexivity.
  rewrite Hs.
  destruct (option_eq_dec pystr_eq_dec (Product.product_id p) (Review.product_id r));
    cbn [List.length]; lia.
Qed.

(** X6. Size of the join: every review row is paired once with each product
    row of its [product_id], so the merged table has as many rows as the sum,
    over the review rows, of the number of product rows with that
    [product_id]; a product listed twice doubles its reviews.  When the
    [product_id]s of [df1] are pairwise distinct, the merged table has one
    row for each review whose [product_id] is in [df1], and no more rows
    than [df2]. *)
Theorem merge_row_count (df1 : list Product.t) (df2 : list Review.t) :
  List.length (merge df1 df2)
  = list_sum (map (fun r => count_occ product_key_eq_dec
                              (map Product.product_id df1) (Review.product_id r)) df2) /\
  (NoDup (map Product.product_id df1) ->
   List.length (merge df1 df2)
   = List.length (filter (fun r => if in_dec product_key_eq_dec (Review.product_id r)
                                        (map Product.product_id df1)
                                   then true else false) df2) /\
   (List.length (merge df1 df2) <= List.length df2)%nat).
Proof.
  assert (Hcount : List.length (merge df1 df2)
            = list_sum (map (fun r => count_occ product_key_eq_dec
                               (map Product.product_id df1) (Review.product_id r)) df2)).
  { induction df1 as [| p df1 IH].
    - simpl. induction df2 as [| r df2 IH2]; simpl; auto.
    - rewrite merge_cons, length_app, length_map, IH.
      cbn [map]. rewrite count_first_key. reflexivity. }
  split; [exact Hcount |].
  intros Hnd.
  assert (Hlen : List.length (merge df1 df2)
            = List.length (filter (fun r => if in_dec product_key_eq_dec
                                                 (Review.product_id r)
                                                 (map Product.product_id df1)
                                            then true else false) df2)).
  { rewrite Hcount. clear Hcount.
    induction df2 as [| r df2 IH]; [reflexivity |].
    cbn [map filter]. rewrite list_sum_cons, IH.
    destruct (in_dec product_key_eq_dec (Review.product_id r)
                (map Product.product_id df1)) as [Hin | Hout].
    - rewrite (proj1 (NoDup_count_occ' product_key_eq_dec _) Hnd _ Hin). reflexivity.
    - rewrite (proj1 (count_occ_not_In product_key_eq_dec _ _) Hout). reflexivity. }
  split; [exact Hlen |]. rewrite Hlen. apply filter_length_le.
Qed.

(** The example has two products with distinct ids and six reviews, one of
    them of an unknown product; listing product P1 twice doubles the three
    reviews of P1. *)
Lemma merge_row_count_witness :
  NoDup (map Product.product_id example_products) /\
  List.length (merge example_products example_reviews) = 5%nat /\
  (List.length (merge example_products example_reviews)
     <= List.length example_reviews)%nat /\
  List.length (merge (example_product "P1" 7 :: example_products) example_reviews)
    = 8%nat.
Proof.
  assert (Hnd : NoDup (map Product.product_id example_products)).
  { vm_compute. repeat constructor; simpl; intuition discriminate. }
  split; [exact Hnd |].
  split; [reflexivity |].
  split; [exact (proj2 (proj2 (merge_row_count example_products example_reviews) Hnd)) |].
  reflexivity.
Defined.

(** ** The outcome of the transform *)

Lemma mapM_cases {A B : Type} (f : A -> result B) (l : list A) :
  (exists l', mapM f l = Ok l' /\ Forall2 (fun x y => f x = Ok y) l l') \/
  (exists e x, mapM f l = Raise e /\ In x l /\ f x = Raise e).
Proof.
  induction l as [| a l IH]; simpl.
  - left. exists []. split; [reflexivity | constructor].
  - destruct (f a) as [b | e] eqn:Ea; simpl.
    + destruct IH as [(l' & -> & HF) | (e & x & -> & Hx & Hfx)]; simpl.
      * left. exists (b :: l'). split; [reflexivity | constructor; assumption].
      * right. exists e, x. auto.
    + right. exists e, a. auto.
Qed.

Lemma Forall2_In_l {A B : Type} (R : A -> B -> Prop) (l : list A) (l' : list B) (x : A) :
  Forall2 R l l' -> In x l -> exists y, In y l' /\ R x y.
Proof.
  induction 1 as [| x' y l l' Hxy _ IH]; simpl; [contradiction |].
  intros [<- | Hin]; [eauto |].
  destruct (IH Hin) as (y' & ? & ?). eauto.
Qed.

Lemma py_int_Raise (v : pyval) (e : exn) : py_int v = Raise e -> e = ValueError.
Proof.
  destruct v as [| z | s]; simpl; try congruence.
  unfold py_int_str. destruct (to_ascii s) as [t |]; [| congruence].
  destruct (long_from_string t); congruence.
Qed.

Lemma notna_empty_dec {A : Type} (col : list (option A)) :
  {notna col = []} + {notna col <> []}.
Proof. destruct (notna col); [left; reflexivity | right; discriminate]. Qed.

Lemma columns_dec (df_merged : list Merged.t) :
  some_column_empty df_merged \/ columns_have_values df_merged.
Proof.
  unfold some_column_empty, columns_have_values.
  destruct (notna_empty_dec (map Merged.reviewer_skin_tone (dropna_review_text df_merged)));
    [tauto |].
  destruct (notna_empty_dec (map Merged.reviewer_eye_color (dropna_review_text df_merged)));
    [tauto |].
  destruct (notna_empty_dec (map Merged.reviewer_skin_type (dropna_review_text df_merged)));
    [tauto |].
  destruct (notna_empty_dec (map Merged.reviewer_hair_color (dropna_review_text df_merged)));
    tauto.
Qed.

Lemma fill_missing_some_column_empty (df_merged : list Merged.t) :
  some_column_empty df_merged -> fill_missing df_merged = Raise KeyError.
Proof.
  intros H. destruct (fill_missing df_merged) as [filled | e] eqn:E.
  - exfalso. apply fill_missing_Ok in E.
    destruct E as (tone & eye & type & hair & Ht & He & Hy & Hh & _). simpl in *.
    destruct H as [H | [H | [H | H]]]; apply mode_no_values in H;
      rewrite H in *; discriminate.
  - apply fill_missing_Raise in E. rewrite E. reflexivity.
Qed.

Lemma fill_with_mode_defined (get : Merged.t -> option pystr)
    (set : option pystr -> Merged.t -> Merged.t) (df : list Merged.t) :
  notna (map get df) <> [] -> exists df', fill_with_mode get set df = Ok df'.
Proof.
  intros H. unfold fill_with_mode.
  destruct (mode_defined _ H) as (v & ->). simpl. eauto.
Qed.

Lemma fill_missing_columns_have_values (df_merged : list Merged.t) :
  columns_have_values df_merged ->
  exists tone eye type hair,
    fill_missing df_merged
    = Ok (map (filled_row tone eye type hair) (dropna_review_text df_merged)).
Proof.
  intros (Ht & He & Hy & Hh).
  assert (Hok : exists filled, fill_missing df_merged = Ok filled).
  { unfold fill_missing.
    match goal with
    | |- exists _, bind (fill_with_mode ?g ?s ?df) _ = _ =>
        destruct (fill_with_mode_defined g s df) as (d1 & E1);
        [rewrite map_map; exact Ht |]
    end.
    rewrite E1. simpl. apply fill_with_mode_Ok in E1. destruct E1 as (v1 & _ & ->).
    match goal with
    | |- exists _, bind (fill_with_mode ?g ?s ?df) _ = _ =>
        destruct (fill_with_mode_defined g s df) as (d2 & E2);
        [rewrite !map_map; exact He |]
    end.
    rewrite E2. simpl. apply fill_with_mode_Ok in E2. destruct E2 as (v2 & _ & ->).
    match goal with
    | |- exists _, bind (fill_with_mode ?g ?s ?df) _ = _ =>
        destruct (fill_with_mode_defined g s df) as (d3 & E3);
        [rewrite !map_map; exact Hy |]
    end.
    rewrite E3. simpl. apply fill_with_mode_Ok in E3. destruct E3 as (v3 & _ & ->).
    apply fill_with_mode_defined. rewrite !map_map. exact Hh. }
  destruct Hok as (filled & E). rewrite E. apply fill_missing_Ok in E.
  destruct E as (tone & eye & type & hair & _ & _ & _ & _ & ->).
  exists tone, eye, type, hair. reflexivity.
Qed.

Section OutcomeFacts.
Variable parse_datetime : pystr -> option (option Timestamp).

Lemma derive_dates_row_Raise (m : Merged.t) (e : exn) :
  (d <- to_datetime parse_datetime (Merged.full_date m) ;; Ok (dated_row m d))
    = Raise e ->
  e = DateParseError /\
  exists s, Merged.full_date m = Some s /\ parse_datetime s = None.
Proof.
  destruct (Merged.full_date m) as [s |]; simpl; [| discriminate].
  destruct (parse_datetime s) eqn:Ep; simpl; [discriminate |].
  intros H. injection H as <-. eauto.
Qed.

Lemma derive_dates_row_Ok (m : Merged.t) (c : Clean.t) (s : pystr) :
  (d <- to_datetime parse_datetime (Merged.full_date m) ;; Ok (dated_row m d)) = Ok c ->
  Merged.full_date m = Some s -> parse_datetime s <> None.
Proof.
  intros H Hs. rewrite Hs in H. simpl in H.
  destruct (parse_datetime s); [discriminate | discriminate H].
Qed.

(** The three stages of the transform, one after the other: the outcome is
    decided by the first stage that raises. *)
Lemma transform_outcome (df1 : list Product.t) (df2 : list Review.t) :
  (some_column_empty (merge df1 df2) /\
   transform_data parse_datetime df1 df2 = Raise KeyError) \/
  (columns_have_values (merge df1 df2) /\
   some_date_fails parse_datetime (merge df1 df2) /\
   transform_data parse_datetime df1 df2 = Raise DateParseError) \/
  (columns_have_values (merge df1 df2) /\
   dates_parse parse_datetime (merge df1 df2) /\
   some_identifier_fails (merge df1 df2) /\
   transform_data parse_datetime df1 df2 = Raise ValueError) \/
  (columns_have_values (merge df1 df2) /\
   dates_parse parse_datetime (merge df1 df2) /\
   identifiers_convert (merge df1 df2) /\
   exists t, transform_data parse_datetime df1 df2 = Ok t).
Proof.
  set (M := merge df1 df2).
  unfold transform_data, cleaned. fold M.
  destruct (columns_dec M) as [Hempty | Hcols].
  { left. split; [exact Hempty |].
    rewrite (fill_missing_some_column_empty Hempty). reflexivity. }
  right.
  destruct (fill_missing_columns_have_values Hcols) as (tone & eye & type & hair & ->).
  simpl.
  destruct (mapM_cases
              (fun m => d <- to_datetime parse_datetime (Merged.full_date m) ;;
                        Ok (dated_row m d))
              (map (filled_row tone eye type hair) (dropna_review_text M)))
    as [(dated & Hdated & HF) | (e & x & Hraise & Hx & Hfx)].
  2:{ left. split; [exact Hcols |].
      apply in_map_iff in Hx. destruct Hx as (m & <- & Hm).
      apply derive_dates_row_Raise in Hfx. destruct Hfx as (-> & s & Hs & Hp).
      split; [exists m, s; auto |].
      unfold derive_dates. rewrite Hraise. reflexivity. }
  right.
  assert (Hparse : dates_parse parse_datetime M).
  { intros m s Hm Hs.
    destruct (Forall2_In_l (filled_row tone eye type hair m) HF) as (c & _ & Hc).
    - apply in_map. exact Hm.
    - exact (derive_dates_row_Ok _ Hc Hs). }
  unfold derive_dates. rewrite Hdated. simpl.
  assert (HK : Forall2 (fun m c => Clean.reviewer_id c = Merged.reviewer_id m)
                 (surviving M) (keep_numeric dated)).
  { apply Forall2_map_l in HF.
    apply Forall2_filter
      with (p := fun m => checkNumeric (Merged.reviewer_id m))
           (q := fun c => checkNumeric (Clean.reviewer_id c)) in HF.
    - eapply Forall2_impl; [| exact HF]. simpl. intros m c _ Hc.
      apply bind_Ok in Hc. destruct Hc as (d & _ & E). injection E as <-. reflexivity.
    - intros m c Hc. apply bind_Ok in Hc. destruct Hc as (d & _ & E).
      injection E as <-. reflexivity. }
  destruct (mapM_cases
              (fun c => z <- py_int (Clean.reviewer_id c) ;;
                        Ok (Clean.set_reviewer_id (PyInt z) c))
              (keep_numeric dated))
    as [(df_clean & Hclean & HC) | (e & c & Hraise & Hc & Hfc)].
  - right. split; [exact Hcols |]. split; [exact Hparse |]. split.
    + intros m Hm. destruct (Forall2_In_l m HK Hm) as (c & Hc & Eid).
      destruct (Forall2_In_l c HC Hc) as (c' & _ & Hc').
      apply bind_Ok in Hc'. destruct Hc' as (z & Hz & _).
      exists z. rewrite <- Eid. exact Hz.
    + unfold reviewer_id_to_int. rewrite Hclean. simpl. eauto.
  - left. split; [exact Hcols |]. split; [exact Hparse |].
    destruct (py_int (Clean.reviewer_id c)) as [z | e'] eqn:Ez; simpl in Hfc;
      [discriminate |].
    injection Hfc as <-. pose proof (py_int_Raise _ Ez) as ->.
    split.
    + destruct (Forall2_In_r c HK Hc) as (m & Hm & Eid).
      exists m, ValueError. rewrite <- Eid. auto.
    + unfold reviewer_id_to_int. rewrite Hraise. reflexivity.
Qed.

Lemma columns_exclusive (df_merged : list Merged.t) :
  some_column_empty df_merged -> columns_have_values df_merged -> False.
Proof. unfold some_column_empty, columns_have_values. tauto. Qed.

Lemma dates_exclusive (df_merged : list Merged.t) :
  some_date_fails parse_datetime df_merged ->
  dates_parse parse_datetime df_merged -> False.
Proof. intros (m & s & Hm & Hs & Hp) H. exact (H m s Hm Hs Hp). Qed.

Lemma identifiers_exclusive (df_merged : list Merged.t) :
  some_identifier_fails df_merged -> identifiers_convert df_merged -> False.
Proof.
  intros (m & e & Hm & He) H. destruct (H m Hm) as (z & Hz). congruence.
Qed.

End OutcomeFacts.

(** X7. When the transform returns: [transform_data] returns its five
    tables exactly when, among the merged rows with a [review_text], each of
    the four categorical columns has a non-null value and every submission
    time is read by the parser, and [int] converts the identifier of every
    surviving row. *)
Theorem transform_returns_iff (parse_datetime : pystr -> option (option Timestamp))
    (df1 : list Product.t) (df2 : list Review.t) :
  (exists t, transform_data parse_datetime df1 df2 = Ok t) <->
  columns_have_values (merge df1 df2) /\
  dates_parse parse_datetime (merge df1 df2) /\
  identifiers_convert (merge df1 df2).
Proof.
  destruct (transform_outcome parse_datetime df1 df2)
    as [(Hk & E) | [(Hc & Hd & E) | [(Hc & Hd & Hi & E) | (Hc & Hd & Hi & E)]]].
  - split.
    + intros (t & Ht). congruence.
    + intros (Hc & _). destruct (columns_exclusive Hk Hc).
  - split.
    + intros (t & Ht). congruence.
    + intros (_ & Hp & _). destruct (dates_exclusive Hd Hp).
  - split.
    + intros (t & Ht). congruence.
    + intros (_ & _ & Hconv). destruct (identifiers_exclusive Hi Hconv).
  - split; auto.
Qed.

Lemma transform_returns_iff_witness :
  (columns_have_values (merge example_products example_reviews) /\
   dates_parse parse_iso_date (merge example_products example_reviews) /\
   identifiers_convert (merge example_products example_reviews)) /\
  ~ identifiers_convert (merge example_products superscript_reviews).
Proof.
  split.
  - apply (transform_returns_iff parse_iso_date example_products example_reviews).
    exists example_tables. vm_compute; reflexivity.
  - intros H.
    assert (Hret : exists t, transform_data parse_iso_date example_products
                               superscript_reviews = Ok t).
    { apply (transform_returns_iff parse_iso_date example_products superscript_reviews).
      split; [| split; [| exact H]].
      - repeat split; vm_compute; discriminate.
      - intros m s Hm Hs. vm_compute in Hm. destruct Hm as [<- | []].
        vm_compute in Hs. injection Hs as <-. vm_compute. discriminate. }
    destruct Hret as (t & Ht). vm_compute in Ht. discriminate.
Defined.



(** X9. Empty input: with no product row, with no review row, or more
    generally when no joined row has a [review_text], the transform raises
    [KeyError]; it does not return five empty tables. *)
Theorem empty_join_raises (parse_datetime : pystr -> option (option Timestamp)) :
  (forall df2, transform_data parse_datetime [] df2 = Raise KeyError) /\
  (forall df1, transform_data parse_datetime df1 [] = Raise KeyError) /\
  (forall df1 df2,
      dropna_review_text (merge df1 df2) = [] ->
      transform_data parse_datetime df1 df2 = Raise KeyError).
Proof.
  assert (H : forall df1 df2,
             dropna_review_text (merge df1 df2) = [] ->
             transform_data parse_datetime df1 df2 = Raise KeyError).
  { intros df1 df2 Hnone. unfold transform_data, cleaned.
    rewrite fill_missing_some_column_empty; [reflexivity |].
    left. rewrite Hnone. reflexivity. }
  split; [| split; [| exact H]].
  - intros df2. apply H. reflexivity.
  - intros df1. apply H.
    assert (E : merge df1 [] = []) by (induction df1; simpl; auto).
    rewrite E. reflexivity.
Qed.

Lemma empty_join_raises_witness :
  dropna_review_text
    (merge example_products
       [example_review "P9" (PyStr (lit "100")) "2023-02-01" (Some (lit "Great"))
          (Some (lit "fair")) "Acme" 10%Z]) = [] /\
  transform_data parse_iso_date example_products
    [example_review "P9" (PyStr (lit "100")) "2023-02-01" (Some (lit "Great"))
       (Some (lit "fair")) "Acme" 10%Z] = Raise KeyError.
Proof.
  split; [vm_compute; reflexivity |].
  apply (proj2 (proj2 (empty_join_raises parse_iso_date))).
  vm_compute; reflexivity.
Defined.

(** * Further properties of [checkNumeric] and [int] *)

From Stdlib Require DecimalPos.

(** Below 127 a character with a digit value is one of '0' to '9', and its
    decimal value is its distance from '0'. *)
Lemma digit_below_127 (c : N) :
  (c < 127)%N -> unicode_digit c <> None ->
  is_ascii_digit c = true /\ unicode_decimal c = Some (c - 48)%N.
Proof.
  intros Hc Hd.
  assert (H : forallb (fun n =>
                implb (is_some (unicode_digit (N.of_nat n)))
                  (is_ascii_digit (N.of_nat n) &&
                   match unicode_decimal (N.of_nat n) with
                   | Some d => (d =? N.of_nat n - 48)%N
                   | None => false
                   end))
                (seq 0 127) = true) by (vm_compute; reflexivity).
  rewrite forallb_forall in H. specialize (H (N.to_nat c)).
  rewrite N2Nat.id in H. apply is_some_true in Hd. rewrite Hd in H. simpl in H.
  assert (Hin : In (N.to_nat c) (seq 0 127)) by (apply in_seq; lia).
  apply H in Hin. apply andb_true_iff in Hin. destruct Hin as [Ha Hv].
  split; [exact Ha |].
  destruct (unicode_decimal c) as [d |]; [| discriminate].
  apply N.eqb_eq in Hv. congruence.
Qed.

(** No white-space character has a digit value. *)
Lemma space_not_digit (c : N) : unicode_isspace c = true -> unicode_digit c = None.
Proof.
  intros H.
  assert (Hin : In c [9; 10; 11; 12; 13; 28; 29; 30; 31; 32; 133; 160; 5760;
                      8192; 8193; 8194; 8195; 8196; 8197; 8198; 8199; 8200;
                      8201; 8202; 8232; 8233; 8239; 8287; 12288]%N).
  { unfold unicode_isspace, in_run in H.
    repeat rewrite ?orb_true_iff, ?andb_true_iff, ?N.leb_le, ?N.ltb_lt, ?N.eqb_eq in H.
    simpl. lia. }
  revert Hin. generalize c. apply Forall_forall.
  repeat constructor.
Qed.

Lemma unicode_decimal_lt (c d : N) : unicode_decimal c = Some d -> (d < 10)%N.
Proof.
  unfold unicode_decimal.
  destruct (find (fun b => in_run c b 10) decimal_blocks) as [b |] eqn:E; [| discriminate].
  intros H. injection H as <-. apply find_some in E. destruct E as [_ E].
  apply in_run_iff in E. lia.
Qed.

(** What [int] makes of a character that [str.isdigit] accepts: the ASCII
    digit of its decimal value, when it has one. *)
Lemma to_ascii_char_digit (c : N) :
  unicode_digit c <> None ->
  to_ascii_char c = match unicode_decimal c with
                    | Some d => Some (48 + d)%N
                    | None => None
                    end.
Proof.
  intros Hd. unfold to_ascii_char.
  destruct (N.ltb_spec c 127) as [Hc | Hc].
  - destruct (digit_below_127 Hc Hd) as [Ha ->].
    apply ascii_digit_bounds in Ha. f_equal. lia.
  - destruct (unicode_isspace c) eqn:Es; [| reflexivity].
    apply space_not_digit in Es. contradiction.
Qed.

Lemma to_ascii_decimal (s : pystr) :
  Forall (fun c => unicode_decimal c <> None) s ->
  exists t, to_ascii s = Some t /\
            Forall (fun a => is_ascii_digit a = true) t /\
            forall acc, decimal_value acc t
                        = Some (fold_left
                                  (fun acc c =>
                                     (10 * acc + Z.of_N (match unicode_decimal c with
                                                         | Some d => d
                                                         | None => 0%N
                                                         end))%Z) s acc).
Proof.
  induction 1 as [| c s Hc _ (t & Ht & Hdig & Hval)].
  - exists []. repeat split; auto.
  - destruct (unicode_decimal c) as [d |] eqn:Ed; [| contradiction].
    assert (Hdigit : unicode_digit c <> None).
    { unfold unicode_digit. rewrite Ed. discriminate. }
    pose proof (unicode_decimal_lt _ Ed) as Hlt.
    exists ((48 + d)%N :: t). cbn [to_ascii].
    rewrite (to_ascii_char_digit _ Hdigit), Ed, Ht.
    assert (Ha : is_ascii_digit (48 + d) = true) by (apply ascii_digit_bounds; lia).
    repeat split.
    + constructor; assumption.
    + intros acc. cbn [decimal_value fold_left]. rewrite Ha, Ed, Hval.
      do 3 f_equal. lia.
Qed.

Lemma long_from_string_digits (t : list N) :
  t <> [] -> Forall (fun a => is_ascii_digit a = true) t ->
  long_from_string t = decimal_value 0 t.
Proof.
  intros Hne Ht.
  destruct (scan_digits_digits 0 0 Ht) as (v & Hv & Hscan).
  rewrite Hv. unfold long_from_string. destruct t as [| c t']; [contradiction |].
  inversion Ht as [| ? ? Hc _]; subst. apply ascii_digit_bounds in Hc.
  assert (Hsp : is_ascii_space c = false).
  { unfold is_ascii_space, in_run. bool_cases. }
  simpl lstrip. rewrite Hsp.
  destruct (N.eqb_spec c 43); [lia |]. destruct (N.eqb_spec c 45); [lia |].
  destruct (N.eqb_spec c 95); [lia |].
  rewrite Hscan. reflexivity.
Qed.

Lemma fold_decimal_nonneg (s : pystr) (acc : Z) :
  (0 <= acc)%Z ->
  (0 <= fold_left (fun acc c =>
                     (10 * acc + Z.of_N (match unicode_decimal c with
                                         | Some d => d
                                         | None => 0%N
                                         end))%Z) s acc)%Z.
Proof.
  revert acc; induction s as [| c s IH]; intros acc Hacc; cbn [fold_left]; [exact Hacc |].
  apply IH. lia.
Qed.

Lemma to_ascii_not_decimal (s : pystr) :
  Forall (fun c => unicode_digit c <> None) s ->
  Exists (fun c => unicode_decimal c = None) s -> to_ascii s = None.
Proof.
  intros Hs Hex. induction Hex as [c s Hc | c s _ IH]; cbn [to_ascii];
    inversion Hs as [| ? ? Hd Hs']; subst.
  - rewrite (to_ascii_char_digit _ Hd), Hc. reflexivity.
  - rewrite (IH Hs'). destruct (to_ascii_char c); reflexivity.
Qed.

(** X10. What [int] does with an accepted string: when [str.isdigit] holds
    of [s], [int(s)] returns the non-negative integer that the decimal
    digits of [s] denote if every character of [s] is a decimal digit of
    some script, and raises [ValueError] if some character is a digit
    without decimal value. *)
Theorem int_of_accepted_string (s : pystr) :
  isdigit s = true ->
  (Forall (fun c => unicode_decimal c <> None) s ->
   py_int (PyStr s) = Ok (unicode_int_value s) /\ (0 <= unicode_int_value s)%Z) /\
  (Exists (fun c => unicode_decimal c = None) s ->
   py_int (PyStr s) = Raise ValueError).
Proof.
  intros Hd. apply isdigit_iff in Hd. destruct Hd as [Hne Hd]. split.
  - intros Hdec. destruct (to_ascii_decimal Hdec) as (t & Ht & Hdig & Hval).
    split; [| apply fold_decimal_nonneg; lia].
    simpl. unfold py_int_str. rewrite Ht.
    rewrite long_from_string_digits; [rewrite Hval; reflexivity | | exact Hdig].
    destruct s; [contradiction |]. destruct t; [| discriminate].
    simpl in Ht. destruct (to_ascii_char n); [| discriminate].
    destruct (to_ascii s); discriminate.
  - intros Hex. simpl. unfold py_int_str.
    rewrite (to_ascii_not_decimal Hd Hex). reflexivity.
Qed.

(** The string of the Arabic-Indic three and the ASCII one reads 31; a
    superscript two is refused. *)
Lemma int_of_accepted_string_witness :
  isdigit (arabic_three ++ lit "1") = true /\
  py_int (PyStr (arabic_three ++ lit "1")) = Ok 31%Z /\
  isdigit superscript_two = true /\
  py_int (PyStr superscript_two) = Raise ValueError.
Proof.
  split; [reflexivity |].
  split.
  - apply (proj1 (int_of_accepted_string (arabic_three ++ lit "1") eq_refl)).
    repeat constructor; vm_compute; discriminate.
  - split; [reflexivity |].
    apply (proj2 (int_of_accepted_string superscript_two eq_refl)).
    constructor. vm_compute. reflexivity.
Defined.

(** ** Identifiers that are Python [int]s *)

Lemma lit_uint_digits (d : Decimal.uint) :
  Forall (fun a => is_ascii_digit a = true) (lit (NilEmpty.string_of_uint d)).
Proof.
  induction d; cbn [NilEmpty.string_of_uint]; unfold lit in *;
    cbn [list_ascii_of_string map]; constructor; auto.
Qed.

Lemma decimal_value_uint_acc (d : Decimal.uint) (acc : positive) :
  decimal_value (Z.pos acc) (lit (NilEmpty.string_of_uint d))
  = Some (Z.pos (Pos.of_uint_acc d acc)).
Proof.
  revert acc; induction d; intros acc; cbn [NilEmpty.string_of_uint Pos.of_uint_acc];
    unfold lit in *; cbn [list_ascii_of_string map decimal_value];
    try reflexivity;
    match goal with
    | |- context [is_ascii_digit ?a] =>
        replace (is_ascii_digit a) with true by reflexivity
    end;
    match goal with
    | |- decimal_value ?v _ = Some (Z.pos (Pos.of_uint_acc _ ?acc')) =>
        replace v with (Z.pos acc') by (vm_compute Z.of_N; lia)
    end; apply IHd.
Qed.

Lemma decimal_value_uint (d : Decimal.uint) :
  decimal_value 0 (lit (NilEmpty.string_of_uint d)) = Some (Z.of_N (Pos.of_uint d)).
Proof.
  induction d; cbn [NilEmpty.string_of_uint Pos.of_uint];
    unfold lit in *; cbn [list_ascii_of_string map decimal_value];
    try reflexivity;
    match goal with
    | |- context [is_ascii_digit ?a] =>
        replace (is_ascii_digit a) with true by reflexivity
    end;
    [exact IHd | ..];
    match goal with
    | |- decimal_value ?v (map N_of_ascii (list_ascii_of_string ?str))
         = Some (Z.of_N (N.pos (Pos.of_uint_acc _ ?acc'))) =>
        replace v with (Z.pos acc') by reflexivity;
        exact (decimal_value_uint_acc _ acc')
    end.
Qed.

(** The string form of a non-negative [int]: its decimal digits. *)
Lemma py_str_nonneg (z : Z) :
  (0 <= z)%Z ->
  py_str (PyInt z) <> [] /\
  Forall (fun a => is_ascii_digit a = true) (py_str (PyInt z)) /\
  decimal_value 0 (py_str (PyInt z)) = Some z.
Proof.
  intros Hz. destruct z as [| p | p]; [| | lia].
  - repeat split; [discriminate | repeat constructor].
  - cbn [py_str Z.to_int NilZero.string_of_int].
    pose proof (DecimalPos.Unsigned.of_to p) as Hp.
    unfold NilZero.string_of_uint.
    destruct (Pos.to_uint p) eqn:Eu;
      try (simpl in Hp; discriminate Hp);
      rewrite <- Eu in *; clear Eu;
      (split; [| split;
                 [apply lit_uint_digits
                 | rewrite decimal_value_uint, Hp; reflexivity]]).
    all: intros E;
      pose proof (decimal_value_uint (Pos.to_uint p)) as Hv;
      rewrite E, Hp in Hv; simpl in Hv; discriminate Hv.
Qed.

(** X11. An identifier that is a Python [int] is accepted exactly when it is
    not negative (the string form of a negative one starts with a minus
    sign), and the missing value NaN is rejected. *)
Theorem checkNumeric_int (z : Z) :
  (checkNumeric (PyInt z) = true <-> (0 <= z)%Z) /\ checkNumeric PyNaN = false.
Proof.
  split; [| reflexivity]. split.
  - intros H. destruct z as [| p | p]; try lia.
    rewrite checkNumeric_isdigit in H. discriminate H.
  - intros Hz. destruct (py_str_nonneg Hz) as (Hne & Hdig & _).
    rewrite checkNumeric_isdigit. apply isdigit_ascii; [| tauto].
    eapply Forall_impl; [| exact Hdig]. intros a Ha.
    apply ascii_digit_bounds in Ha. lia.
Qed.

Lemma checkNumeric_int_witness :
  checkNumeric (PyInt 2023) = true /\ checkNumeric (PyInt (-5)) = false.
Proof.
  split.
  - apply (proj1 (checkNumeric_int 2023)). lia.
  - reflexivity.
Defined.

(** X12. [int(str(n)) = n] for a non-negative [int] [n]: the identifier [n]
    and the string of its decimal digits are both accepted and convert to
    the same [reviewer_id]. *)
Theorem int_of_str_round_trip (z : Z) :
  (0 <= z)%Z ->
  checkNumeric (PyInt z) = true /\
  checkNumeric (PyStr (py_str (PyInt z))) = true /\
  py_int (PyStr (py_str (PyInt z))) = Ok z /\
  py_int (PyInt z) = Ok z.
Proof.
  intros Hz. destruct (py_str_nonneg Hz) as (Hne & Hdig & Hval).
  assert (Hacc : isdigit (py_str (PyInt z)) = true).
  { apply isdigit_ascii; [| tauto].
    eapply Forall_impl; [| exact Hdig]. intros a Ha.
    apply ascii_digit_bounds in Ha. lia. }
  split; [rewrite checkNumeric_isdigit; exact Hacc |].
  split; [rewrite checkNumeric_isdigit; exact Hacc |].
  split; [| reflexivity].
  destruct (py_int_ascii_digits Hne Hdig) as (z' & Hint & Hval' & _).
  rewrite Hint. congruence.
Qed.

Lemma int_of_str_round_trip_witness :
  (0 <= 100)%Z /\
  py_str (PyInt 100) = lit "100" /\
  py_int (PyStr (py_str (PyInt 100))) = Ok 100%Z.
Proof.
  split; [lia |]. split; [reflexivity |].
  apply (@int_of_str_round_trip 100%Z). lia.
Defined.

(** * Further properties of the mode *)

From Stdlib Require Import Permutation.

Lemma pystr_leb_antisym (s t : pystr) :
  pystr_leb s t = true -> pystr_leb t s = true -> s = t.
Proof.
  revert t; induction s as [| a s IH]; intros [| b t]; simpl; try congruence.
  destruct (N.ltb_spec a b), (N.ltb_spec b a); try discriminate; try lia.
  intros H1 H2. f_equal; [lia | auto].
Qed.

Lemma notna_Permutation {A : Type} (col col' : list (option A)) :
  Permutation col col' -> Permutation (notna col) (notna col').
Proof.
  induction 1 as [| [x |] l l' _ IH | [x |] [y |] l | l1 l2 l3 _ IH1 _ IH2]; simpl;
    auto using Permutation_refl, perm_skip, perm_swap.
  eapply perm_trans; eassumption.
Qed.

Lemma dropna_review_text_Permutation (df df' : list Merged.t) :
  Permutation df df' -> Permutation (dropna_review_text df) (dropna_review_text df').
Proof.
  unfold dropna_review_text.
  induction 1 as [| m l l' _ IH | m1 m2 l | l1 l2 l3 _ IH1 _ IH2]; simpl.
  - constructor.
  - destruct (is_some (Merged.review_text m)); auto using perm_skip.
  - destruct (is_some (Merged.review_text m1)), (is_some (Merged.review_text m2));
      auto using Permutation_refl, perm_skip, perm_swap.
  - eapply perm_trans; eassumption.
Qed.

Lemma most_frequent_Permutation (col col' : list (option pystr)) (v : pystr) :
  Permutation col col' -> most_frequent v col -> most_frequent v col'.
Proof.
  intros HP [Hin Hmax]. pose proof (notna_Permutation HP) as HN.
  pose proof (proj1 (Permutation_count_occ pystr_eq_dec _ _) HN) as Hc.
  split.
  - eapply Permutation_in; eassumption.
  - intros w. rewrite <- !Hc. apply Hmax.
Qed.

Lemma mode_Permutation (col col' : list (option pystr)) :
  Permutation col col' -> item0 (mode col) = item0 (mode col').
Proof.
  intros HP. pose proof (notna_Permutation HP) as HN.
  destruct (notna_empty_dec col) as [E | NE].
  - rewrite E in HN. apply Permutation_nil in HN.
    rewrite (mode_no_values _ E), (mode_no_values _ HN). reflexivity.
  - assert (NE' : notna col' <> []).
    { intros E'. rewrite E' in HN. apply Permutation_sym, Permutation_nil in HN.
      contradiction. }
    destruct (mode_defined _ NE) as (v & Hv), (mode_defined _ NE') as (v' & Hv').
    rewrite Hv, Hv'. f_equal. apply pystr_leb_antisym.
    + eapply item0_mode_least; [exact Hv |].
      apply most_frequent_Permutation with (col := col');
        [apply Permutation_sym; exact HP | apply item0_mode; exact Hv'].
    + eapply item0_mode_least; [exact Hv' |].
      apply most_frequent_Permutation with (col := col);
        [exact HP | apply item0_mode; exact Hv].
Qed.

(** X13. The fill values do not depend on the row order: if two merged
    tables hold the same rows in different orders, then for every column the
    value [mode()[0]] taken over the rows with a [review_text] is the same,
    and it is undefined for both or for neither.  Ties between equally
    frequent values go to the least string, whatever the order. *)
Theorem fill_value_order_independent (get : Merged.t -> option pystr)
    (df_merged df_merged' : list Merged.t) :
  Permutation df_merged df_merged' ->
  item0 (mode (map get (dropna_review_text df_merged)))
  = item0 (mode (map get (dropna_review_text df_merged'))).
Proof.
  intros HP. apply mode_Permutation. apply Permutation_map.
  apply dropna_review_text_Permutation. exact HP.
Qed.

Lemma fill_value_order_independent_witness :
  Permutation (merge example_products example_reviews)
              (rev (merge example_products example_reviews)) /\
  item0 (mode (map Merged.reviewer_skin_tone
                 (dropna_review_text (merge example_products example_reviews))))
    = Ok (lit "fair") /\
  item0 (mode (map Merged.reviewer_skin_tone
                 (dropna_review_text (rev (merge example_products example_reviews)))))
    = Ok (lit "fair").
Proof.
  split; [apply Permutation_rev |].
  split; [vm_compute; reflexivity |].
  rewrite <- (fill_value_order_independent Merged.reviewer_skin_tone
                (Permutation_rev (merge example_products example_reviews))).
  vm_compute; reflexivity.
Defined.

(** * Properties of the load step *)

Section LoadFacts.
Variable database : Type.
Variable run_statement : string -> list param -> database -> option database.

Lemma run_all_app (insert_table_queries : string -> option string)
    (l1 l2 : list (string * list param)) (db : database) :
  run_all run_statement insert_table_queries (l1 ++ l2) db
  = and_then (run_all run_statement insert_table_queries l1 db)
             (run_all run_statement insert_table_queries l2).
Proof.
  revert db; induction l1 as [| [key params] l1 IH]; intros db; simpl; [reflexivity |].
  destruct (insert_table_queries key) as [query |]; [| reflexivity].
  destruct (run_statement query params db) as [db' |]; [apply IH | reflexivity].
Qed.

Lemma insert_rows_run_all (insert_table_queries : string -> option string)
    (key : string) (rows : list (list param)) (conn : connection database) :
  insert_rows run_statement insert_table_queries key rows conn
  = match run_all run_statement insert_table_queries (map (pair key) rows)
            (in_transaction conn) with
    | Some db => Some (mkConnection (committed conn) db)
    | None => None
    end.
Proof.
  revert conn; induction rows as [| row rows IH]; intros conn; simpl.
  - destruct conn; reflexivity.
  - destruct (insert_table_queries key) as [query |]; [| reflexivity].
    unfold execute.
    destruct (run_statement query row (in_transaction conn)) as [db |]; [| reflexivity].
    rewrite IH. reflexivity.
Qed.

Lemma execute_queries_run_queries (queries : list string) (conn : connection database) :
  execute_queries run_statement queries conn
  = match run_queries run_statement queries (in_transaction conn) with
    | Some db => Some (mkConnection (committed conn) db)
    | None => None
    end.
Proof.
  revert conn; induction queries as [| query queries IH]; intros conn; simpl.
  - destruct conn; reflexivity.
  - unfold execute.
    destruct (run_statement query [] (in_transaction conn)) as [db |]; [| reflexivity].
    rewrite IH. reflexivity.
Qed.

(** X14. The load is all or nothing and runs in table order: the content
    committed by [insert_data_to_tables] is the content after all the INSERT
    statements, those of the product rows first, then brand, reviewer, date
    and review rows, each table in row order, if every one of them succeeds;
    if any statement fails (or its query is missing from the dictionary) the
    committed content is what it was before.  In both cases no transaction
    is left open. *)
Theorem insert_data_all_or_nothing (conn : connection database)
    (insert_table_queries : string -> option string)
    (product_df : list ProductRow.t) (brand_df : list BrandRow.t)
    (reviewer_df : list ReviewerRow.t) (date_df : list DateRow.t)
    (reviews_df : list ReviewsRow.t) :
  insert_data_to_tables run_statement conn insert_table_queries
    product_df brand_df reviewer_df date_df reviews_df
  = match run_all run_statement insert_table_queries
            (insert_statements product_df brand_df reviewer_df date_df reviews_df)
            (in_transaction conn) with
    | Some db => mkConnection db db
    | None => mkConnection (committed conn) (committed conn)
    end.
Proof.
  unfold insert_data_to_tables, insert_statements.
  rewrite <- (map_map product_params (pair "product"%string)).
  rewrite <- (map_map brand_params (pair "brand"%string)).
  rewrite <- (map_map reviewer_params (pair "reviewer"%string)).
  rewrite <- (map_map date_params (pair "date"%string)).
  rewrite <- (map_map reviews_params (pair "reviews"%string)).
  rewrite run_all_app, insert_rows_run_all.
  destruct (run_all run_statement insert_table_queries
              (map (pair "product"%string) (map product_params product_df))
              (in_transaction conn)) as [db1 |]; [| reflexivity].
  cbn [and_then]. rewrite run_all_app, insert_rows_run_all.
  cbn [in_transaction committed].
  destruct (run_all run_statement insert_table_queries
              (map (pair "brand"%string) (map brand_params brand_df)) db1)
    as [db2 |]; [| reflexivity].
  cbn [and_then]. rewrite run_all_app, insert_rows_run_all.
  cbn [in_transaction committed].
  destruct (run_all run_statement insert_table_queries
              (map (pair "reviewer"%string) (map reviewer_params reviewer_df)) db2)
    as [db3 |]; [| reflexivity].
  cbn [and_then]. rewrite run_all_app, insert_rows_run_all.
  cbn [in_transaction committed].
  destruct (run_all run_statement insert_table_queries
              (map (pair "date"%string) (map date_params date_df)) db3)
    as [db4 |]; [| reflexivity].
  cbn [and_then]. rewrite insert_rows_run_all. cbn [in_transaction committed].
  destruct (run_all run_statement insert_table_queries
              (map (pair "reviews"%string) (map reviews_params reviews_df)) db4)
    as [db5 |]; reflexivity.
Qed.

(** X15. The three schema helpers are all or nothing: [create_tables],
    [drop_existing_tables] and [truncate_existing_tables] commit the content
    after all their queries, run in list order, if every query succeeds, and
    otherwise leave the committed content as it was; no transaction is left
    open. *)
Theorem schema_queries_all_or_nothing (conn : connection database)
    (queries : list string) :
  let outcome :=
    match run_queries run_statement queries (in_transaction conn) with
    | Some db => mkConnection db db
    | None => mkConnection (committed conn) (committed conn)
    end in
  create_tables run_statement conn queries = outcome /\
  drop_existing_tables run_statement conn queries = outcome /\
  truncate_existing_tables run_statement conn queries = outcome.
Proof.
  unfold create_tables, drop_existing_tables, truncate_existing_tables.
  rewrite execute_queries_run_queries.
  destruct (run_queries run_statement queries (in_transaction conn)); simpl; auto.
Qed.

End LoadFacts.

(** Loading the example tables into an empty log server commits twelve
    statements, the two product rows first and the three review rows last;
    loading them again fails at the first statement and changes nothing. *)
Lemma insert_data_all_or_nothing_witness :
  List.length
    (committed
       (insert_data_to_tables log_statement (mkConnection [] []) INSERT_TABLE_QUERIES
          (product_df example_tables) (brand_df example_tables)
          (reviewer_df example_tables) (date_df example_tables)
          (reviews_df example_tables))) = 12%nat /\
  run_all log_statement INSERT_TABLE_QUERIES
    (insert_statements (product_df example_tables) (brand_df example_tables)
       (reviewer_df example_tables) (date_df example_tables)
       (reviews_df example_tables))
    [(query_literal "INSERT INTO tbl_brand(brand_id, brand_name) VALUES (%s,%s)",
      [PInt 8; PStr (lit "Acme")])] = None /\
  insert_data_to_tables log_statement
    (mkConnection
       [(query_literal "INSERT INTO tbl_brand(brand_id, brand_name) VALUES (%s,%s)",
         [PInt 8; PStr (lit "Acme")])]
       [(query_literal "INSERT INTO tbl_brand(brand_id, brand_name) VALUES (%s,%s)",
         [PInt 8; PStr (lit "Acme")])])
    INSERT_TABLE_QUERIES
    (product_df example_tables) (brand_df example_tables)
    (reviewer_df example_tables) (date_df example_tables)
    (reviews_df example_tables)
  = mkConnection
      [(query_literal "INSERT INTO tbl_brand(brand_id, brand_name) VALUES (%s,%s)",
        [PInt 8; PStr (lit "Acme")])]
      [(query_literal "INSERT INTO tbl_brand(brand_id, brand_name) VALUES (%s,%s)",
        [PInt 8; PStr (lit "Acme")])].
Proof.
  split; [vm_compute; reflexivity |].
  assert (Hfail : run_all log_statement INSERT_TABLE_QUERIES
            (insert_statements (product_df example_tables) (brand_df example_tables)
               (reviewer_df example_tables) (date_df example_tables)
               (reviews_df example_tables))
            [(query_literal "INSERT INTO tbl_brand(brand_id, brand_name) VALUES (%s,%s)",
              [PInt 8; PStr (lit "Acme")])] = None)
    by (vm_compute; reflexivity).
  split; [exact Hfail |].
  rewrite (insert_data_all_or_nothing log_statement).
  cbn [in_transaction committed]. rewrite Hfail. reflexivity.
Defined.

Lemma schema_queries_all_or_nothing_witness :
  create_tables log_statement (mkConnection [] [])
    ["CREATE TABLE a"; "CREATE TABLE b"]%string
  = mkConnection [("CREATE TABLE a"%string, []); ("CREATE TABLE b"%string, [])]
                 [("CREATE TABLE a"%string, []); ("CREATE TABLE b"%string, [])] /\
  create_tables log_statement (mkConnection [] [])
    ["CREATE TABLE a"; "CREATE TABLE a"]%string
  = mkConnection [] [].
Proof.
  split.
  - rewrite (proj1 (schema_queries_all_or_nothing log_statement
                      (mkConnection [] []) ["CREATE TABLE a"; "CREATE TABLE b"]%string)).
    vm_compute; reflexivity.
  - rewrite (proj1 (schema_queries_all_or_nothing log_statement
                      (mkConnection [] []) ["CREATE TABLE a"; "CREATE TABLE a"]%string)).
    vm_compute; reflexivity.
Defined.

(** ** Loading the tables of the transform under foreign keys *)

Lemma has_key_app (query : string) (key : param) (db more : statement_log) :
  has_key query key db = true -> has_key query key (db ++ more) = true.
Proof.
  unfold has_key. rewrite existsb_app. intros ->. reflexivity.
Qed.

Lemma has_key_In (query : string) (key : param) (rest : list param)
    (db : statement_log) :
  In (query, key :: rest) db -> has_key query key db = true.
Proof.
  intros H. unfold has_key. apply existsb_exists.
  exists (query, key :: rest). split; [exact H |]. simpl.
  rewrite String.eqb_refl. destruct (param_eq_dec key key); [reflexivity | contradiction].
Qed.

(** The rows of a dimension table are all accepted. *)
Lemma run_all_dimension (key query : string) (rows : list (list param))
    (db : statement_log) :
  INSERT_TABLE_QUERIES key = Some query ->
  (query =? insert_query "reviews")%string = false ->
  run_all references_statement INSERT_TABLE_QUERIES (map (pair key) rows) db
  = Some (db ++ map (pair query) rows).
Proof.
  intros Hq Hne. revert db; induction rows as [| row rows IH]; intros db;
    cbn [map run_all].
  - rewrite app_nil_r. reflexivity.
  - rewrite Hq. unfold references_statement at 1. rewrite Hne.
    rewrite IH, <- app_assoc. reflexivity.
Qed.

(** The review rows are all accepted once their keys are there. *)
Lemma run_all_reviews (rows : list ReviewsRow.t) (db : statement_log) :
  Forall (fun f =>
            has_key (insert_query "product")
              (param_of PStr (ReviewsRow.product_id f)) db = true /\
            has_key (insert_query "brand")
              (param_of PInt (ReviewsRow.brand_id f)) db = true /\
            has_key (insert_query "reviewer")
              (param_of_pyval (ReviewsRow.reviewer_id f)) db = true /\
            has_key (insert_query "date")
              (param_of PTimestamp (ReviewsRow.date_id f)) db = true) rows ->
  run_all references_statement INSERT_TABLE_QUERIES
    (map (pair "reviews"%string) (map reviews_params rows)) db
  = Some (db ++ map (pair (insert_query "reviews")) (map reviews_params rows)).
Proof.
  revert db; induction rows as [| f rows IH]; intros db Hkeys; cbn [map run_all].
  - rewrite app_nil_r. reflexivity.
  - inversion Hkeys as [| ? ? (Hp & Hb & Hr & Hd) Hrest]; subst.
    change (INSERT_TABLE_QUERIES "reviews") with (Some (insert_query "reviews")).
    cbv beta iota.
    unfold references_statement at 1. rewrite String.eqb_refl.
    unfold reviews_params at 1. rewrite Hp, Hb, Hr, Hd. cbn [andb].
    rewrite IH, <- app_assoc; [reflexivity |].
    eapply Forall_impl; [| exact Hrest].
    intros f' (Hp' & Hb' & Hr' & Hd').
    repeat split; apply has_key_app; assumption.
Qed.

(** Every foreign key of a fact row is the key of a row of its dimension
    table. *)
Lemma fact_keys_in_dimensions (parse_datetime : pystr -> option (option Timestamp))
    (df1 : list Product.t) (df2 : list Review.t) (t : Tables) :
  transform_data parse_datetime df1 df2 = Ok t ->
  Forall (fun f =>
            (exists d, In d (product_df t) /\
                       ProductRow.product_id d = ReviewsRow.product_id f) /\
            (exists d, In d (brand_df t) /\
                       BrandRow.brand_id d = ReviewsRow.brand_id f) /\
            (exists d, In d (reviewer_df t) /\
                       ReviewerRow.reviewer_id d = ReviewsRow.reviewer_id f) /\
            (exists d, In d (date_df t) /\
                       DateRow.date_id d = ReviewsRow.date_id f))
    (reviews_df t).
Proof.
  intros H. apply transform_data_Ok in H. destruct H as (df_clean & _ & ->).
  apply Forall_forall. intros f Hf. simpl in Hf.
  apply make_reviews_In in Hf. destruct Hf as (k & c & Hk & ->).
  apply nth_error_In in Hk. cbn [make_tables product_df brand_df reviewer_df date_df].
  split; [| split; [| split]].
  - assert (Hkey : In (Clean.product_id c)
              (map ProductRow.product_id
                 (drop_duplicates product_key_eq_dec ProductRow.product_id
                    (map product_row df_clean)))).
    { apply drop_duplicates_keys. rewrite map_map.
      change (Clean.product_id c)
        with ((fun x => ProductRow.product_id (product_row x)) c).
      apply in_map. exact Hk. }
    apply in_map_iff in Hkey. destruct Hkey as (d & Ed & Hd). eauto.
  - assert (Hkey : In (Clean.brand_id c)
              (map BrandRow.brand_id
                 (drop_duplicates brand_key_eq_dec BrandRow.brand_id
                    (map brand_row df_clean)))).
    { apply drop_duplicates_keys. rewrite map_map.
      change (Clean.brand_id c) with ((fun x => BrandRow.brand_id (brand_row x)) c).
      apply in_map. exact Hk. }
    apply in_map_iff in Hkey. destruct Hkey as (d & Ed & Hd). eauto.
  - assert (Hkey : In (Clean.reviewer_id c)
              (map ReviewerRow.reviewer_id
                 (drop_duplicates pyval_eq_dec ReviewerRow.reviewer_id
                    (map reviewer_row df_clean)))).
    { apply drop_duplicates_keys. rewrite map_map.
      change (Clean.reviewer_id c)
        with ((fun x => ReviewerRow.reviewer_id (reviewer_row x)) c).
      apply in_map. exact Hk. }
    apply in_map_iff in Hkey. destruct Hkey as (d & Ed & Hd). eauto.
  - assert (Hkey : In (Clean.full_date c)
              (map DateRow.date_id
                 (drop_duplicates date_key_eq_dec DateRow.date_id
                    (map date_row df_clean)))).
    { apply drop_duplicates_keys. rewrite map_map.
      change (Clean.full_date c) with ((fun x => DateRow.date_id (date_row x)) c).
      apply in_map. exact Hk. }
    apply in_map_iff in Hkey. destruct Hkey as (d & Ed & Hd). eauto.
Qed.

(** X16. The load order meets the foreign keys: on a server that refuses a
    review row unless rows with its four keys have been inserted,
    [insert_data_to_tables], given the tables of a successful transform,
    fails on no statement: it commits the rows of the four dimension tables
    and then every review row, in that order, after whatever the content was
    before. *)
Theorem load_meets_references (parse_datetime : pystr -> option (option Timestamp))
    (df1 : list Product.t) (df2 : list Review.t) (t : Tables)
    (conn : connection statement_log) :
  transform_data parse_datetime df1 df2 = Ok t ->
  insert_data_to_tables references_statement conn INSERT_TABLE_QUERIES
    (product_df t) (brand_df t) (reviewer_df t) (date_df t) (reviews_df t)
  = mkConnection
      (in_transaction conn
       ++ map (pair (insert_query "product")) (map product_params (product_df t))
       ++ map (pair (insert_query "brand")) (map brand_params (brand_df t))
       ++ map (pair (insert_query "reviewer")) (map reviewer_params (reviewer_df t))
       ++ map (pair (insert_query "date")) (map date_params (date_df t))
       ++ map (pair (insert_query "reviews")) (map reviews_params (reviews_df t)))
      (in_transaction conn
       ++ map (pair (insert_query "product")) (map product_params (product_df t))
       ++ map (pair (insert_query "brand")) (map brand_params (brand_df t))
       ++ map (pair (insert_query "reviewer")) (map reviewer_params (reviewer_df t))
       ++ map (pair (insert_query "date")) (map date_params (date_df t))
       ++ map (pair (insert_query "reviews")) (map reviews_params (reviews_df t))).
Proof.
  intros H. apply fact_keys_in_dimensions in H.
  unfold insert_data_to_tables.
  rewrite insert_rows_run_all.
  rewrite (@run_all_dimension "product" (insert_query "product")) by reflexivity.
  cbn [and_then]. rewrite insert_rows_run_all. cbn [in_transaction committed].
  rewrite (@run_all_dimension "brand" (insert_query "brand")) by reflexivity.
  cbn [and_then]. rewrite insert_rows_run_all. cbn [in_transaction committed].
  rewrite (@run_all_dimension "reviewer" (insert_query "reviewer")) by reflexivity.
  cbn [and_then]. rewrite insert_rows_run_all. cbn [in_transaction committed].
  rewrite (@run_all_dimension "date" (insert_query "date")) by reflexivity.
  cbn [and_then]. rewrite insert_rows_run_all. cbn [in_transaction committed].
  rewrite run_all_reviews.
  - cbn [and_then commit in_transaction committed]. rewrite <- !app_assoc. reflexivity.
  - eapply Forall_impl; [| exact H].
    intros f ((dp & Hdp & Ep) & (db & Hdb & Eb) & (dr & Hdr & Er) & (dd & Hdd & Ed)).
    split; [| split; [| split]].
    + rewrite <- Ep.
      apply has_key_In with (rest := tl (product_params dp)).
      apply in_or_app. left. apply in_or_app. left. apply in_or_app. left.
      apply in_or_app. right.
      apply (in_map (pair (insert_query "product"))) with (x := product_params dp).
      apply in_map. exact Hdp.
    + rewrite <- Eb.
      apply has_key_In with (rest := tl (brand_params db)).
      apply in_or_app. left. apply in_or_app. left. apply in_or_app. right.
      apply (in_map (pair (insert_query "brand"))) with (x := brand_params db).
      apply in_map. exact Hdb.
    + rewrite <- Er.
      apply has_key_In with (rest := tl (reviewer_params dr)).
      apply in_or_app. left. apply in_or_app. right.
      apply (in_map (pair (insert_query "reviewer"))) with (x := reviewer_params dr).
      apply in_map. exact Hdr.
    + rewrite <- Ed.
      apply has_key_In with (rest := tl (date_params dd)).
      apply in_or_app. right.
      apply (in_map (pair (insert_query "date"))) with (x := date_params dd).
      apply in_map. exact Hdd.
Qed.

(** The example tables are loaded whole into an empty server; the first
    review row alone, run before any dimension row, is refused. *)
Lemma load_meets_references_witness :
  transform_data parse_iso_date example_products example_reviews = Ok example_tables /\
  List.length
    (committed
       (insert_data_to_tables references_statement (mkConnection [] [])
          INSERT_TABLE_QUERIES
          (product_df example_tables) (brand_df example_tables)
          (reviewer_df example_tables) (date_df example_tables)
          (reviews_df example_tables))) = 12%nat /\
  insert_data_to_tables references_statement (mkConnection [] [])
    INSERT_TABLE_QUERIES [] [] [] [] (reviews_df example_tables)
  = mkConnection [] [].
Proof.
  split; [vm_compute; reflexivity |].
  split; [| vm_compute; reflexivity].
  rewrite (@load_meets_references parse_iso_date example_products example_reviews
             example_tables (mkConnection [] [])) by (vm_compute; reflexivity).
  reflexivity.
Defined.
